(** * WebTunnelSSH: the launcher of an SSH client through a WebTunnel

    Shallow embedding of [WebTunnel/WebTunnelSSH/src/WebTunnelSSH.cpp]:
    the option handlers, [promptLogin], [echo], and [main] with the
    argument vector it builds for the SSH client. *)

From Stdlib Require Import ZArith NArith Ascii String List Bool Lia.
From stdpp Require Import base option strings gmap.
Import ListNotations.

Local Open Scope string_scope.
Local Open Scope Z_scope.
Local Open Scope list_scope.

(** ** Characters and strings, as Poco/String.h and Poco/Ascii.h see them *)

Module Poco.

(** Modelled from the spec: [Poco::Ascii::toLower] (Poco/Ascii.h is not among
    the sources of WebTunnelSSH); the "case-insensitive" of the match on the
    executable name: the letters A-Z are mapped to a-z, every other
    character is left alone. *)
Definition toLower (c : ascii) : ascii :=
  let n := nat_of_ascii c in
  if (65 <=? n)%nat && (n <=? 90)%nat then ascii_of_nat (n + 32) else c.

(** A [char] as the signed 8-bit value the comparison [c1 < c2] sees. *)
Definition char_value (c : ascii) : Z :=
  let n := Z.of_nat (nat_of_ascii c) in
  if 128 <=? n then n - 256 else n.

(** The loop of [icompare]: [it] runs over the selected part of the string,
    [ptr] over the C string. *)
Fixpoint icompare_loop (it ptr : string) : Z :=
  match it, ptr with
  | String a it', String b ptr' =>
      let c1 := char_value (toLower a) in
      let c2 := char_value (toLower b) in
      if c1 <? c2 then -1
      else if c2 <? c1 then 1
      else icompare_loop it' ptr'
  | EmptyString, EmptyString => 0
  | EmptyString, String _ _ => -1
  | String _ _, EmptyString => 1
  end.

(** Modelled from the spec: [Poco::icompare(str, pos, n, ptr)]
    (Poco/String.h is not among the sources of WebTunnelSSH), the
    "case-insensitive prefix match on executable name": the [n] characters
    of [str] from [pos] on, cut at the end of [str], are compared with the
    whole of [ptr] with both sides in lower case; 0 means equal. *)
Definition icompare (str : string) (pos n : nat) (ptr : string) : Z :=
  let sz := String.length str in
  let pos := if (sz <? pos)%nat then sz else pos in
  let n := if (sz <? pos + n)%nat then (sz - pos)%nat else n in
  icompare_loop (substring pos n str) ptr.

(** One round of the digit loop of [NumberFormatter::format]: the lowest
    digit of [value] is put in front of what was produced so far. *)
Definition digit (d : N) : ascii := ascii_of_N (48 + d).

Fixpoint format_loop (fuel : nat) (value : N) (acc : string) : string :=
  match fuel with
  | O => acc
  | S fuel' =>
      let acc' := String (digit (value mod 10)) acc in
      if (value / 10 =? 0)%N then acc' else format_loop fuel' (value / 10)%N acc'
  end.

(** Modelled from the spec: [Poco::NumberFormatter::format(unsigned)]
    (Poco/NumberFormatter.h is not among the sources of WebTunnelSSH), "the
    numeric local port": the decimal digits of the value, the most
    significant first, no sign, no padding. An [unsigned] has at most ten
    digits. *)
Definition format (value : N) : string := format_loop 10 value "".

(** The value of a string of decimal digits; [None] when a character is
    not a digit or the string is empty. *)
Definition digit_value (c : ascii) : option N :=
  let n := N_of_ascii c in
  if ((48 <=? n) && (n <=? 57))%N then Some (n - 48)%N else None.

Fixpoint decimal_loop (s : string) (acc : N) : option N :=
  match s with
  | EmptyString => Some acc
  | String c s' =>
      match digit_value c with
      | Some d => decimal_loop s' (10 * acc + d)%N
      | None => None
      end
  end.

Definition decimal (s : string) : option N :=
  match s with
  | EmptyString => None
  | _ => decimal_loop s 0%N
  end.

End Poco.

(** The spec's reading of the classification: a prefix of the executable
    name, compared without regard to case. *)
Fixpoint lower (s : string) : string :=
  match s with
  | EmptyString => EmptyString
  | String c s' => String (Poco.toLower c) (lower s')
  end.

Definition iprefix (p s : string) : bool := String.prefix (lower p) (lower s).

(** ** The world outside the program *)

(** The two families of systems the program is compiled for
    ([POCO_OS_FAMILY_WINDOWS], [POCO_OS_FAMILY_UNIX]). *)
Inductive os_family := Windows | Unix.

(** An exception of the libraries, by the name of its class. *)
Inductive exn := Exception (what : string).

(** What the program is compiled and run against: the build switches and
    the library calls whose code lies outside this file. A fallible call
    gives [inl] the exception it throws. *)
Record Env := {
  os : os_family;
  (** [WEBTUNNEL_ENABLE_TLS] *)
  tls_enabled : bool;
  (** [Poco::Path::find] over the value of PATH *)
  path_find : string -> option string;
  (** [loadConfiguration()]: the properties after the default configuration
      files, if present, were added *)
  load_default_configuration : gmap string string -> gmap string string;
  (** [loadConfiguration(file)]: the properties after the file was added *)
  load_configuration : string -> gmap string string -> gmap string string;
  (** the number parsing behind [getInt] and [getBool] and of
      [NumberParser::parseUnsigned] *)
  parse_int : string -> option Z;
  parse_bool : string -> option bool;
  parse_unsigned : string -> option Z;
  (** the TLS context and [SSLManager::initializeClient] *)
  initialize_client : bool -> string -> bool -> string -> option exn;
  (** the constructor of [Poco::URI] *)
  uri_parse : string -> exn + string;
  (** the constructor of [LocalPortForwarder]: the forwarder's local port *)
  forwarder_open : Z -> Z -> string -> string -> string -> Z -> exn + Z;
  (** [Process::launch] followed by [ProcessHandle::wait] *)
  launch_wait : string -> list string -> exn + Z
}.

(** What the program does to the outside, in the order it does it. *)
Inductive event :=
  | DisplayHelp
  | LogError (msg : string)
  | LogDebug (msg : string)
  | Stdout (text : string)
  | Getline
  | SetTerminalMode (mode : Z)
  | InitializeClient (acceptUnknownCert : bool) (cipherList : string)
      (extendedVerification : bool) (caLocation : string)
  | SetGlobalProxyConfig (host : string) (port : Z) (username password : string)
  | OpenForwarder (localPort remotePort : Z) (uri : string)
      (username password : string) (connectTimeout : Z)
  | SetRemoteTimeout (seconds : Z)
  | SetLocalTimeout (seconds : Z)
  | Launch (command : string) (args : list string).

(** [std::cin]: the characters not read yet and the two state bits that
    [std::getline] sets. *)
Record istream := { buffer : string; eofbit : bool; failbit : bool }.

(** The members of [WebTunnelSSH]. *)
Record App := {
  _helpRequested : bool;
  _localPort : Z;
  _remotePort : Z;
  _username : string;
  _password : string;
  _login : string;
  _sshClient : string
}.

(** The application object with all it can reach: its configuration, the
    standard input, the mode word of the terminal, and the trace of what
    it did. *)
Record State := {
  self : App;
  config : gmap string string;
  cin : istream;
  terminal : Z;
  trace : list event
}.

Definition set_self (f : App -> App) (s : State) : State :=
  {| self := f (self s); config := config s; cin := cin s;
     terminal := terminal s; trace := trace s |}.
Definition set_config (f : gmap string string -> gmap string string) (s : State) : State :=
  {| self := self s; config := f (config s); cin := cin s;
     terminal := terminal s; trace := trace s |}.
Definition set_cin (i : istream) (s : State) : State :=
  {| self := self s; config := config s; cin := i;
     terminal := terminal s; trace := trace s |}.
Definition set_terminal (m : Z) (s : State) : State :=
  {| self := self s; config := config s; cin := cin s;
     terminal := m; trace := trace s |}.
Definition add_event (e : event) (s : State) : State :=
  {| self := self s; config := config s; cin := cin s;
     terminal := terminal s; trace := trace s ++ [e] |}.

Definition with_helpRequested (b : bool) (a : App) : App :=
  {| _helpRequested := b; _localPort := _localPort a; _remotePort := _remotePort a;
     _username := _username a; _password := _password a; _login := _login a;
     _sshClient := _sshClient a |}.
Definition with_localPort (p : Z) (a : App) : App :=
  {| _helpRequested := _helpRequested a; _localPort := p; _remotePort := _remotePort a;
     _username := _username a; _password := _password a; _login := _login a;
     _sshClient := _sshClient a |}.
Definition with_remotePort (p : Z) (a : App) : App :=
  {| _helpRequested := _helpRequested a; _localPort := _localPort a; _remotePort := p;
     _username := _username a; _password := _password a; _login := _login a;
     _sshClient := _sshClient a |}.
Definition with_username (v : string) (a : App) : App :=
  {| _helpRequested := _helpRequested a; _localPort := _localPort a;
     _remotePort := _remotePort a; _username := v; _password := _password a;
     _login := _login a; _sshClient := _sshClient a |}.
Definition with_password (v : string) (a : App) : App :=
  {| _helpRequested := _helpRequested a; _localPort := _localPort a;
     _remotePort := _remotePort a; _username := _username a; _password := v;
     _login := _login a; _sshClient := _sshClient a |}.
Definition with_login (v : string) (a : App) : App :=
  {| _helpRequested := _helpRequested a; _localPort := _localPort a;
     _remotePort := _remotePort a; _username := _username a;
     _password := _password a; _login := v; _sshClient := _sshClient a |}.
Definition with_sshClient (v : string) (a : App) : App :=
  {| _helpRequested := _helpRequested a; _localPort := _localPort a;
     _remotePort := _remotePort a; _username := _username a;
     _password := _password a; _login := _login a; _sshClient := v |}.

(** ** The monad of the program: state, and an exception or a value *)

Inductive result (A : Type) :=
  | Normal (a : A)
  | Thrown (e : exn).
Arguments Normal {A} a.
Arguments Thrown {A} e.

Definition M (A : Type) : Type := State -> result A * State.

#[global] Instance M_ret : MRet M := fun A a s => (Normal a, s).
#[global] Instance M_bind : MBind M := fun A B f m s =>
  match m s with
  | (Normal a, s') => f a s'
  | (Thrown e, s') => (Thrown e, s')
  end.

Definition throw {A} (e : exn) : M A := fun s => (Thrown e, s).
Definition get : M State := fun s => (Normal s, s).
Definition modify (f : State -> State) : M unit := fun s => (Normal tt, f s).
Definition emit (e : event) : M unit := modify (add_event e).
Definition lift {A} (r : exn + A) : M A :=
  match r with
  | inl e => throw e
  | inr a => mret a
  end.

Definition rethrow (r : option exn) : M unit :=
  match r with
  | Some e => throw e
  | None => mret tt
  end.

Definition UInt16 (z : Z) : Z := z mod 65536.

(** Modelled from the spec: the exit codes of [Poco::Util::Application]
    (Poco/Util/Application.h is not among the sources of WebTunnelSSH): "0
    success" and "a distinct configuration error code". *)
Definition EXIT_OK : Z := 0.
Definition EXIT_CONFIG : Z := 78.

(** [ECHO] of termios.h and [ENABLE_ECHO_INPUT] of windows.h. *)
Definition ECHO : Z := 8.
Definition ENABLE_ECHO_INPUT : Z := 4.

(** The bit of the mode word that [echo] works on. *)
Definition echo_flag (o : os_family) : Z :=
  match o with
  | Windows => ENABLE_ECHO_INPUT
  | Unix => ECHO
  end.

Definition str_empty (s : string) : bool :=
  match s with
  | EmptyString => true
  | String _ _ => false
  end.

(** ** Standard input *)

(** The characters up to the first newline, and what follows the newline;
    [None] when the end of the input comes first. *)
Fixpoint read_line (s : string) : string * option string :=
  match s with
  | EmptyString => (EmptyString, None)
  | String c s' =>
      if Ascii.eqb c "010" then (EmptyString, Some s')
      else let (line, rest) := read_line s' in (String c line, rest)
  end.

(** [std::getline(strm, str)]: on a stream that is not good nothing is read,
    [failbit] is set and [str] is left as it is; otherwise [str] is erased
    and filled up to the newline, which is taken from the stream and dropped;
    the end of the input sets [eofbit], and [failbit] as well when nothing
    at all was taken. *)
Definition getline (strm : istream) (str : string) : istream * string :=
  if eofbit strm || failbit strm then
    ({| buffer := buffer strm; eofbit := eofbit strm; failbit := true |}, str)
  else
    match read_line (buffer strm) with
    | (line, Some rest) =>
        ({| buffer := rest; eofbit := false; failbit := false |}, line)
    | (line, None) =>
        ({| buffer := ""; eofbit := true; failbit := str_empty line |}, line)
    end.

(** ** The program *)

Section WebTunnelSSH.

Variable env : Env.

(** *** The configuration, [config()] *)

Definition getString (key default : string) : M string :=
  s ← get;
  mret (match config s !! key with
        | Some v => v
        | None => default
        end).

Definition getInt (key : string) (default : Z) : M Z :=
  s ← get;
  match config s !! key with
  | Some v =>
      match parse_int env v with
      | Some z => mret z
      | None => throw (Exception "SyntaxException")
      end
  | None => mret default
  end.

Definition getBool (key : string) (default : bool) : M bool :=
  s ← get;
  match config s !! key with
  | Some v =>
      match parse_bool env v with
      | Some b => mret b
      | None => throw (Exception "SyntaxException")
      end
  | None => mret default
  end.

Definition setString (name value : string) : M unit :=
  modify (set_config (fun c => <[name := value]> c)).

(** *** The constructor *)

Definition findExecutable (name : string) : string :=
  match path_find env name with
  | Some p => p
  | None => ""
  end.

Definition WebTunnelSSH : App :=
  {| _helpRequested := false;
     _localPort := 0;
     _remotePort := 22;
     _username := "";
     _password := "";
     _login := "";
     _sshClient :=
       match os env with
       | Windows =>
           let c := findExecutable "ssh.exe" in
           if str_empty c then findExecutable "putty.exe" else c
       | Unix => "ssh"
       end |}.

(** *** The option handlers *)

Definition handleHelp (name value : string) : M unit :=
  modify (set_self (with_helpRequested true)).

Definition handleConfig (name value : string) : M unit :=
  modify (set_config (load_configuration env value)).

Definition handleClient (name value : string) : M unit :=
  modify (set_self (with_sshClient value)).

Definition handleSCP (name value : string) : M unit :=
  modify (set_self (with_sshClient "scp")).

Definition parseUnsigned (value : string) : M Z :=
  match parse_unsigned env value with
  | Some z => mret z
  | None => throw (Exception "SyntaxException")
  end.

Definition handleLocalPort (name value : string) : M unit :=
  z ← parseUnsigned value;
  modify (set_self (with_localPort (UInt16 z))).

Definition handleRemotePort (name value : string) : M unit :=
  z ← parseUnsigned value;
  modify (set_self (with_remotePort (UInt16 z))).

Definition handleUsername (name value : string) : M unit :=
  modify (set_self (with_username value)).

Definition handleLogin (name value : string) : M unit :=
  modify (set_self (with_login value)).

Definition handlePassword (name value : string) : M unit :=
  modify (set_self (with_password value)).

Definition defineProperty (def : string) : M unit :=
  match index 0 "=" def with
  | Some pos =>
      setString (substring 0 pos def)
                (substring (pos + 1) (String.length def - pos) def)
  | None => setString def ""
  end.

Definition handleDefine (name value : string) : M unit :=
  defineProperty value.

(** *** [defineOptions] and the handling of the options *)

(** An option as [defineOptions] declares it: its names, whether it may be
    given more than once, the name of its argument if it takes one, the
    bounds of its [IntValidator] if it has one, and its callback. *)
Record Option := {
  fullName : string;
  shortName : string;
  required : bool;
  repeatable : bool;
  argument : option string;
  validator : option (Z * Z);
  callback : string -> string -> M unit
}.

Definition defineOptions : list Option :=
  [ {| fullName := "help"; shortName := "h"; required := false; repeatable := false;
       argument := None; validator := None; callback := handleHelp |};
    {| fullName := "config-file"; shortName := "c"; required := false;
       repeatable := true; argument := Some "file"; validator := None;
       callback := handleConfig |};
    {| fullName := "ssh-client"; shortName := "C"; required := false;
       repeatable := false; argument := Some "program"; validator := None;
       callback := handleClient |};
    {| fullName := "scp"; shortName := ""; required := false; repeatable := false;
       argument := None; validator := None; callback := handleSCP |};
    {| fullName := "local-port"; shortName := "L"; required := false;
       repeatable := false; argument := Some "port"; validator := Some (1, 65535);
       callback := handleLocalPort |};
    {| fullName := "remote-port"; shortName := "R"; required := false;
       repeatable := false; argument := Some "port"; validator := Some (1, 65535);
       callback := handleRemotePort |};
    {| fullName := "username"; shortName := "u"; required := false;
       repeatable := false; argument := Some "username"; validator := None;
       callback := handleUsername |};
    {| fullName := "password"; shortName := "p"; required := false;
       repeatable := false; argument := Some "password"; validator := None;
       callback := handlePassword |};
    {| fullName := "login-name"; shortName := "l"; required := false;
       repeatable := false; argument := Some "username"; validator := None;
       callback := handleLogin |};
    {| fullName := "define"; shortName := "D"; required := false; repeatable := true;
       argument := Some "name=value"; validator := None; callback := handleDefine |} ].

(** Modelled from the spec: the option processing of Poco::Util
    ([OptionSet::getOption], [IntValidator::validate],
    [Application::handleOption], [OptionProcessor], which are not among the
    sources of WebTunnelSSH), for the options of the table "CLI surface":
    an option is found by its full name; the argument of an option with a
    validator must be an integer within its bounds ("1-65535"); an option
    that is not "repeatable" is taken once only; then its callback is
    invoked. *)
Definition getOption (name : string) : M Option :=
  match List.find (fun o => String.eqb (fullName o) name) defineOptions with
  | Some o => mret o
  | None => throw (Exception "UnknownOptionException")
  end.

Definition validate (o : Option) (value : string) : M unit :=
  match validator o with
  | None => mret tt
  | Some (lo, hi) =>
      match parse_int env value with
      | Some n =>
          if (n <? lo) || (hi <? n)
          then throw (Exception "InvalidArgumentException")
          else mret tt
      | None => throw (Exception "InvalidArgumentException")
      end
  end.

Definition handleOption (name value : string) : M unit :=
  o ← getOption name;
  validate o value ;;
  callback o name value.

(** The options of the command line, taken in the order they were given;
    [specified] holds the names of the ones seen so far. *)
Fixpoint process (specified : list string) (opts : list (string * string)) : M unit :=
  match opts with
  | [] => mret tt
  | (name, value) :: opts' =>
      o ← getOption name;
      (if negb (repeatable o) && existsb (String.eqb name) specified
       then throw (Exception "DuplicateOptionException")
       else mret tt) ;;
      handleOption name value ;;
      process (name :: specified) opts'
  end.

Definition processOptions (opts : list (string * string)) : M unit :=
  process [] opts.

(** *** [displayHelp], [echo], [promptLogin] *)

Definition displayHelp : M unit := emit DisplayHelp.

Definition echo (status : bool) : M unit :=
  s ← get;
  let flag := echo_flag (os env) in
  let mode := terminal s in
  let mode := if status then Z.lor mode flag else Z.land mode (Z.lnot flag) in
  modify (set_terminal mode) ;;
  emit (SetTerminalMode mode).

Definition cin_getline (str : string) : M string :=
  s ← get;
  let (strm, str') := getline (cin s) str in
  modify (set_cin strm) ;;
  emit Getline ;;
  mret str'.

Definition promptLogin : M unit :=
  s ← get;
  (if str_empty (_username (self s)) then
     emit (Stdout "Remote Manager Username: ") ;;
     v ← cin_getline (_username (self s));
     modify (set_self (with_username v))
   else mret tt) ;;
  s ← get;
  (if str_empty (_password (self s)) then
     emit (Stdout "Remote Manager Password: ") ;;
     echo false ;;
     v ← cin_getline (_password (self s));
     modify (set_self (with_password v)) ;;
     echo true ;;
     emit (Stdout (String "010" ""))
   else mret tt).

(** *** The argument vector of the client (the [sshArgs] of [main]) *)

Definition sshArgs (sshClient : string) (localPort : Z) (login : string)
    (args : list string) : list string :=
  let v :=
    if (Poco.icompare sshClient 0 5 "putty" =? 0)
       || (Poco.icompare sshClient 0 3 "scp" =? 0)
    then ["-P"] else ["-p"] in
  let v := v ++ [Poco.format (Z.to_N localPort)] in
  let itArgs := tail args in
  let v :=
    if negb (str_empty login) && negb (Poco.icompare sshClient 0 3 "scp" =? 0)
    then v ++ ["-l"; login] else v in
  let v := v ++ itArgs in
  if negb (Poco.icompare sshClient 0 3 "scp" =? 0)
  then v ++ ["localhost"] else v.

(** [Poco::format] with [%d] on the exit code. *)
Definition format_int (z : Z) : string :=
  if z <? 0 then String "-" (Poco.format (Z.abs_N z)) else Poco.format (Z.abs_N z).

(** *** [main] *)

(** The first part of the else branch of [main], up to the resolution of
    the client: the three timeouts, the TLS context when the program is
    built with TLS, and the proxy. It hands on the timeouts. *)
Definition transportSetup : M (Z * Z * Z) :=
  connectTimeout ← getInt "webtunnel.connectTimeout" 30;
  remoteTimeout ← getInt "webtunnel.remoteTimeout" 300;
  localTimeout ← getInt "webtunnel.localTimeout" 7200;
  (if tls_enabled env then
     acceptUnknownCert ← getBool "tls.acceptUnknownCertificate" true;
     cipherList ← getString "tls.ciphers" "ALL:!ADH:!LOW:!EXP:!MD5:@STRENGTH";
     extendedVerification ← getBool "tls.extendedCertificateVerification" false;
     caLocation ← getString "tls.caLocation" "";
     emit (InitializeClient acceptUnknownCert cipherList
             extendedVerification caLocation) ;;
     rethrow (initialize_client env acceptUnknownCert cipherList
                extendedVerification caLocation)
   else mret tt) ;;
  proxy ← getBool "http.proxy.enable" false;
  (if (proxy : bool) then
     host ← getString "http.proxy.host" "";
     port ← getInt "http.proxy.port" 80;
     username ← getString "http.proxy.username" "";
     password ← getString "http.proxy.password" "";
     emit (SetGlobalProxyConfig host (UInt16 port) username password)
   else mret tt) ;;
  mret (connectTimeout, remoteTimeout, localTimeout).

Definition no_client_message : string :=
  "No SSH client program available. Please configure the SSH client program using the ssh.executable configuration property or ssh-client option.".

Definition main (args : list string) : M Z :=
  s ← get;
  if _helpRequested (self s) || (match args with [] => true | _ => false end)
  then
    displayHelp ;;
    mret EXIT_OK
  else
    timeouts ← transportSetup;
    let connectTimeout := timeouts.1.1 in
    let remoteTimeout := timeouts.1.2 in
    let localTimeout := timeouts.2 in
    s ← get;
    sshClient ← getString "ssh.executable" (_sshClient (self s));
    modify (set_self (with_sshClient sshClient)) ;;
    if str_empty sshClient then
      emit (LogError no_client_message) ;;
      mret EXIT_CONFIG
    else
      promptLogin ;;
      s ← get;
      uri ← lift (uri_parse env (hd "" args));
      port ← lift (forwarder_open env (_localPort (self s)) (_remotePort (self s))
                     uri (_username (self s)) (_password (self s)) connectTimeout);
      emit (OpenForwarder (_localPort (self s)) (_remotePort (self s))
              uri (_username (self s)) (_password (self s)) connectTimeout) ;;
      emit (SetRemoteTimeout remoteTimeout) ;;
      emit (SetLocalTimeout localTimeout) ;;
      let localPort := UInt16 port in
      let sshArgs := sshArgs (_sshClient (self s)) localPort (_login (self s)) args in
      emit (LogDebug ("Launching SSH client: " +:+ _sshClient (self s))) ;;
      emit (Launch (_sshClient (self s)) sshArgs) ;;
      rc ← lift (launch_wait env (_sshClient (self s)) sshArgs);
      emit (LogDebug ("SSH client terminated with exit code " +:+ format_int rc)) ;;
      mret rc.

(** *** [initialize]: the default configuration files are loaded. The
    instantiators that it registers have no part in what [main] does here. *)

Definition initialize : M unit :=
  modify (set_config (load_default_configuration env)).

(** *** A run of the program, as [POCO_APP_MAIN] sets it up: the object is
    constructed, the options of the command line are handled, the
    application is initialized, [main] gets the other arguments. *)

Definition initial (cfg : gmap string string) (input : string) (mode : Z) : State :=
  {| self := WebTunnelSSH;
     config := cfg;
     cin := {| buffer := input; eofbit := false; failbit := false |};
     terminal := mode;
     trace := [] |}.

Definition run (opts : list (string * string)) (args : list string) : M Z :=
  processOptions opts ;;
  initialize ;;
  main args.

End WebTunnelSSH.

(** ** Observations on traces *)

Definition is_launch (e : event) : bool :=
  match e with
  | Launch _ _ => true
  | _ => false
  end.

Definition is_open (e : event) : bool :=
  match e with
  | OpenForwarder _ _ _ _ _ _ => true
  | _ => false
  end.

(** The calls that set up the transport. *)
Definition setup_event (e : event) : bool :=
  match e with
  | InitializeClient _ _ _ _ | SetGlobalProxyConfig _ _ _ _ => true
  | _ => false
  end.

(** From [s] to [s'] nothing happened but transport set-up. *)
Definition quiet (s s' : State) : Prop :=
  self s' = self s /\ config s' = config s /\ cin s' = cin s /\
  terminal s' = terminal s /\
  exists t, trace s' = trace s ++ t /\ forallb setup_event t = true.

(** The terminal echoes what is typed. *)
Definition echo_enabled (env : Env) (mode : Z) : Prop :=
  Z.land mode (echo_flag (os env)) = echo_flag (os env).

(** The terminal does not echo. *)
Definition echo_disabled (env : Env) (mode : Z) : Prop :=
  Z.land mode (echo_flag (os env)) = 0.

(** The client that line 366 of [main] resolves in state [s]. *)
Definition client_at (s : State) : string :=
  match config s !! "ssh.executable" with
  | Some v => v
  | None => _sshClient (self s)
  end.

(** The client named on the command line: the value of the last
    [--ssh-client] or [--scp] among the options, if there is one. *)
Fixpoint client_option (opts : list (string * string)) (last : option string)
    : option string :=
  match opts with
  | [] => last
  | (name, value) :: opts' =>
      client_option opts'
        (if String.eqb name "ssh-client" then Some value
         else if String.eqb name "scp" then Some "scp"
         else last)
  end.

(** No child process was started. *)
Definition no_launch (t : list event) : bool := forallb (fun e => negb (is_launch e)) t.

(** The calls of [Process::launch], in order. *)
Fixpoint launches (t : list event) : list (string * list string) :=
  match t with
  | [] => []
  | Launch c a :: t' => (c, a) :: launches t'
  | _ :: t' => launches t'
  end.

(** How often a text was written to the standard output. *)
Definition prompts (text : string) (t : list event) : nat :=
  length (List.filter (fun e => match e with
                                | Stdout x => String.eqb x text
                                | _ => false
                                end) t).

(** ** A test bed: a Unix system where everything outside succeeds *)

Definition unix_env : Env :=
  {| os := Unix;
     tls_enabled := true;
     path_find := fun _ => None;
     load_default_configuration := fun c => c;
     load_configuration := fun _ c => c;
     parse_int := fun _ => None;
     parse_bool := fun _ => None;
     parse_unsigned := fun s => option_map Z.of_N (Poco.decimal s);
     initialize_client := fun _ _ _ _ => None;
     uri_parse := fun s => inr s;
     forwarder_open := fun l _ _ _ _ _ => inr (if l =? 0 then 49152 else l);
     launch_wait := fun _ _ => inr 0 |}.

(** The stream after the username was asked for, if it was. *)
Definition cin_after_username (s : State) : istream :=
  if str_empty (_username (self s)) then (getline (cin s) (_username (self s))).1
  else cin s.

(** The mode word while the password is typed. *)
Definition mode_off (env : Env) (s : State) : Z :=
  Z.land (terminal s) (Z.lnot (echo_flag (os env))).

(** What each of the two prompts adds to the trace. *)
Definition username_events (s : State) : list event :=
  if str_empty (_username (self s))
  then [Stdout "Remote Manager Username: "; Getline] else [].

Definition password_events (env : Env) (s : State) : list event :=
  if str_empty (_password (self s))
  then [Stdout "Remote Manager Password: "; SetTerminalMode (mode_off env s); Getline;
        SetTerminalMode (Z.lor (mode_off env s) (echo_flag (os env)));
        Stdout (String "010" "")]
  else [].

(** ** The ways [main] can go *)

(** A computation that does nothing but transport set-up. *)
Definition quietly {A} (m : M A) : Prop := forall s, quiet s (m s).2.

(** [main] takes its else branch. *)
Definition session (s : State) (args : list string) : Prop :=
  _helpRequested (self s) = false /\ args <> [].

(** The state in which [promptLogin] is called: [s1] is the state after
    the transport set-up that started in [s]. *)
Definition resolved (s s1 : State) : State :=
  set_self (with_sshClient (client_at s)) s1.

(** The state in which the tunnel is opened. *)
Definition prompted (env : Env) (s s1 : State) : State :=
  (promptLogin env (resolved s s1)).2.

(** The argument vector that [main] hands to the client. *)
Definition client_args (s : State) (args : list string) (port : Z) : list string :=
  sshArgs (client_at s) (UInt16 port) (_login (self s)) args.

(** What [main] adds to the trace from the open tunnel to the launch. *)
Definition launch_events (s s2 : State) (args : list string) (t : Z * Z * Z)
    (uri : string) (port : Z) : list event :=
  [OpenForwarder (_localPort (self s2)) (_remotePort (self s2)) uri
     (_username (self s2)) (_password (self s2)) t.1.1;
   SetRemoteTimeout t.1.2;
   SetLocalTimeout t.2;
   LogDebug ("Launching SSH client: " +:+ client_at s);
   Launch (client_at s) (client_args s args port)].

Definition launched (s s2 : State) (args : list string) (t : Z * Z * Z)
    (uri : string) (port : Z) : State :=
  {| self := self s2; config := config s2; cin := cin s2; terminal := terminal s2;
     trace := trace s2 ++ launch_events s s2 args t uri port |}.

(** The runs of [main] from the state [s], one case for each way out of
    it, with the result and the state it ends in. *)
Inductive outcome (env : Env) (args : list string) (s : State)
    : result Z -> State -> Prop :=
  | HelpShown :
      _helpRequested (self s) = true \/ args = [] ->
      outcome env args s (Normal EXIT_OK) (add_event DisplayHelp s)
  | SetupFailed e s1 :
      session s args ->
      transportSetup env s = (Thrown e, s1) ->
      outcome env args s (Thrown e) s1
  | NoClient t s1 :
      session s args ->
      transportSetup env s = (Normal t, s1) ->
      str_empty (client_at s) = true ->
      outcome env args s (Normal EXIT_CONFIG)
        (add_event (LogError no_client_message) (resolved s s1))
  | UriFailed t s1 e :
      session s args ->
      transportSetup env s = (Normal t, s1) ->
      str_empty (client_at s) = false ->
      uri_parse env (hd "" args) = inl e ->
      outcome env args s (Thrown e) (prompted env s s1)
  | TunnelFailed t s1 uri e :
      session s args ->
      transportSetup env s = (Normal t, s1) ->
      str_empty (client_at s) = false ->
      uri_parse env (hd "" args) = inr uri ->
      (let s2 := prompted env s s1 in
       forwarder_open env (_localPort (self s2)) (_remotePort (self s2)) uri
         (_username (self s2)) (_password (self s2)) t.1.1 = inl e) ->
      outcome env args s (Thrown e) (prompted env s s1)
  | LaunchFailed t s1 uri port e :
      session s args ->
      transportSetup env s = (Normal t, s1) ->
      str_empty (client_at s) = false ->
      uri_parse env (hd "" args) = inr uri ->
      (let s2 := prompted env s s1 in
       forwarder_open env (_localPort (self s2)) (_remotePort (self s2)) uri
         (_username (self s2)) (_password (self s2)) t.1.1 = inr port) ->
      launch_wait env (client_at s) (client_args s args port) = inl e ->
      outcome env args s (Thrown e)
        (launched s (prompted env s s1) args t uri port)
  | ChildExited t s1 uri port rc :
      session s args ->
      transportSetup env s = (Normal t, s1) ->
      str_empty (client_at s) = false ->
      uri_parse env (hd "" args) = inr uri ->
      (let s2 := prompted env s s1 in
       forwarder_open env (_localPort (self s2)) (_remotePort (self s2)) uri
         (_username (self s2)) (_password (self s2)) t.1.1 = inr port) ->
      launch_wait env (client_at s) (client_args s args port) = inr rc ->
      outcome env args s (Normal rc)
        (add_event
           (LogDebug ("SSH client terminated with exit code " +:+ format_int rc))
           (launched s (prompted env s s1) args t uri port)).

(** The events of the set-up and of the prompts: neither a launch nor an
    open tunnel. *)
Definition early (t : list event) : bool :=
  forallb (fun e => negb (is_launch e) && negb (is_open e)) t.

(** The run gets as far as opening the tunnel, and that fails with [e]:
    in the constructor of the URI or in the one of the forwarder. *)
Definition tunnel_fails (env : Env) (args : list string) (s : State) (e : exn) : Prop :=
  session s args /\ str_empty (client_at s) = false /\
  exists t s1,
    transportSetup env s = (Normal t, s1) /\
    (uri_parse env (hd "" args) = inl e \/
     exists uri,
       uri_parse env (hd "" args) = inr uri /\
       let s2 := prompted env s s1 in
       forwarder_open env (_localPort (self s2)) (_remotePort (self s2)) uri
         (_username (self s2)) (_password (self s2)) t.1.1 = inl e).

(** The test bed with a constructor of [Poco::URI] that rejects what it is
    given. *)
Definition bad_uri_env : Env :=
  {| os := Unix;
     tls_enabled := false;
     path_find := fun _ => None;
     load_default_configuration := fun c => c;
     load_configuration := fun _ c => c;
     parse_int := fun _ => None;
     parse_bool := fun _ => None;
     parse_unsigned := fun s => option_map Z.of_N (Poco.decimal s);
     initialize_client := fun _ _ _ _ => None;
     uri_parse := fun _ => inl (Exception "SyntaxException");
     forwarder_open := fun l _ _ _ _ _ => inr (if l =? 0 then 49152 else l);
     launch_wait := fun _ _ => inr 0 |}.

(** The test bed built without TLS. *)
Definition unix_env_without_tls : Env :=
  {| os := Unix;
     tls_enabled := false;
     path_find := fun _ => None;
     load_default_configuration := fun c => c;
     load_configuration := fun _ c => c;
     parse_int := fun _ => None;
     parse_bool := fun _ => None;
     parse_unsigned := fun s => option_map Z.of_N (Poco.decimal s);
     initialize_client := fun _ _ _ _ => None;
     uri_parse := fun s => inr s;
     forwarder_open := fun l _ _ _ _ _ => inr (if l =? 0 then 49152 else l);
     launch_wait := fun _ _ => inr 0 |}.

(** The test bed on Windows with no SSH client on the PATH. *)
Definition bare_windows_env : Env :=
  {| os := Windows;
     tls_enabled := false;
     path_find := fun _ => None;
     load_default_configuration := fun c => c;
     load_configuration := fun _ c => c;
     parse_int := fun _ => None;
     parse_bool := fun _ => None;
     parse_unsigned := fun s => option_map Z.of_N (Poco.decimal s);
     initialize_client := fun _ _ _ _ => None;
     uri_parse := fun s => inr s;
     forwarder_open := fun l _ _ _ _ _ => inr (if l =? 0 then 49152 else l);
     launch_wait := fun _ _ => inr 0 |}.

(** A newline, and an input of lines. *)
Definition nl : string := String "010" "".


(** ** More observations *)

(** The value of the last option of the name [key] on the command line, if
    there is one. *)
Fixpoint option_value (key : string) (opts : list (string * string))
    (last : option string) : option string :=
  match opts with
  | [] => last
  | (name, value) :: opts' =>
      option_value key opts' (if String.eqb name key then Some value else last)
  end.

(** The port that the handler of a port option stores for the value of the
    option; [d] when the option was not given. (On a value that does not
    parse the handler throws and stores nothing.) *)
Definition port_of (env : Env) (o : option string) (d : Z) : Z :=
  match o with
  | Some v => UInt16 (default 0 (parse_unsigned env v))
  | None => d
  end.

(** What [promptLogin] leaves in a field: the value it had, or for an empty
    one the line read from [strm]. *)
Definition prompted_value (field : string) (strm : istream) : string :=
  if str_empty field then (getline strm field).2 else field.

(** No newline in the string. *)
Fixpoint one_line (s : string) : bool :=
  match s with
  | EmptyString => true
  | String c s' => negb (Ascii.eqb c "010") && one_line s'
  end.

(** The events of a dialogue with the user: a text on the standard output,
    a read from the standard input, a change of the terminal mode. *)
Definition interactive (e : event) : bool :=
  match e with
  | Getline | Stdout _ | SetTerminalMode _ => true
  | _ => false
  end.

Definition silent (t : list event) : bool := forallb (fun e => negb (interactive e)) t.

(** The standard input at the start of a run. *)
Definition cin0 (input : string) : istream :=
  {| buffer := input; eofbit := false; failbit := false |}.

Definition given (o : option string) : bool :=
  match o with
  | Some _ => true
  | None => false
  end.


(** ** The transport set-up as a function of the configuration *)

Definition SyntaxException : exn := Exception "SyntaxException".

(** What [getInt], [getBool] and [getString] give for a configuration;
    [None] is the exception of a value that does not parse. *)
Definition config_int (env : Env) (cfg : gmap string string) (key : string) (d : Z)
    : option Z :=
  match cfg !! key with
  | Some v => parse_int env v
  | None => Some d
  end.

Definition config_bool (env : Env) (cfg : gmap string string) (key : string) (d : bool)
    : option bool :=
  match cfg !! key with
  | Some v => parse_bool env v
  | None => Some d
  end.

Definition config_string (cfg : gmap string string) (key d : string) : string :=
  default d (cfg !! key).

(** The TLS part of the set-up: the exception that ends it, if any, and
    its events. *)
Definition tls_setup (env : Env) (cfg : gmap string string) : option exn * list event :=
  match config_bool env cfg "tls.acceptUnknownCertificate" true with
  | None => (Some SyntaxException, [])
  | Some a =>
      let c := config_string cfg "tls.ciphers" "ALL:!ADH:!LOW:!EXP:!MD5:@STRENGTH" in
      match config_bool env cfg "tls.extendedCertificateVerification" false with
      | None => (Some SyntaxException, [])
      | Some e =>
          let ca := config_string cfg "tls.caLocation" "" in
          (initialize_client env a c e ca, [InitializeClient a c e ca])
      end
  end.

(** The proxy part of the set-up. *)
Definition proxy_setup (env : Env) (cfg : gmap string string) : option exn * list event :=
  match config_bool env cfg "http.proxy.enable" false with
  | None => (Some SyntaxException, [])
  | Some false => (None, [])
  | Some true =>
      match config_int env cfg "http.proxy.port" 80 with
      | None => (Some SyntaxException, [])
      | Some port =>
          (None, [SetGlobalProxyConfig (config_string cfg "http.proxy.host" "")
                    (UInt16 port)
                    (config_string cfg "http.proxy.username" "")
                    (config_string cfg "http.proxy.password" "")])
      end
  end.

(** The result and the events of [transportSetup] for a configuration. *)
Definition setup_of (env : Env) (cfg : gmap string string)
    : result (Z * Z * Z) * list event :=
  match config_int env cfg "webtunnel.connectTimeout" 30,
        config_int env cfg "webtunnel.remoteTimeout" 300,
        config_int env cfg "webtunnel.localTimeout" 7200 with
  | Some ct, Some rt, Some lt =>
      match (if tls_enabled env then tls_setup env cfg else (None, [])) with
      | (Some e, ev) => (Thrown e, ev)
      | (None, ev) =>
          match proxy_setup env cfg with
          | (Some e, ev') => (Thrown e, ev ++ ev')
          | (None, ev') => (Normal (ct, rt, lt), ev ++ ev')
          end
      end
  | _, _, _ => (Thrown SyntaxException, [])
  end.

Definition add_events (t : list event) (s : State) : State :=
  {| self := self s; config := config s; cin := cin s; terminal := terminal s;
     trace := trace s ++ t |}.


(** The test bed with a configuration whose numbers and truth values are
    read: built with TLS, on Unix. *)
Definition parsing_env : Env :=
  {| os := Unix;
     tls_enabled := true;
     path_find := fun _ => None;
     load_default_configuration := fun c => c;
     load_configuration := fun _ c => c;
     parse_int := fun s => option_map Z.of_N (Poco.decimal s);
     parse_bool := fun s => if String.eqb s "true" then Some true
                            else if String.eqb s "false" then Some false else None;
     parse_unsigned := fun s => option_map Z.of_N (Poco.decimal s);
     initialize_client := fun _ _ _ ca =>
       if str_empty ca then None else Some (Exception "SSLContextException");
     uri_parse := fun s => inr s;
     forwarder_open := fun l _ _ _ _ _ => inr (if l =? 0 then 49152 else l);
     launch_wait := fun _ _ => inr 0 |}.


(** The option of the name [name] is declared and may be given once only. *)
Definition once_only (env : Env) (name : string) : bool :=
  match List.find (fun o => String.eqb (fullName o) name) (defineOptions env) with
  | Some o => negb (repeatable o)
  | None => false
  end.

(** How often the option of the name [name] is on the command line. *)
Definition times (name : string) (opts : list (string * string)) : nat :=
  length (List.filter (fun o => String.eqb name o.1) opts).

(** What the validator of a port option lets pass: an integer from 1 to
    65535. *)
Definition valid_port (env : Env) (value : string) (n : Z) : Prop :=
  parse_int env value = Some n /\ 1 <= n <= 65535.
(** ** Strings: the comparison of Poco against the prefix of the spec *)

Lemma char_value_inj (a b : ascii) : Poco.char_value a = Poco.char_value b -> a = b.
Proof.
  unfold Poco.char_value. intros H.
  pose proof (nat_ascii_bounded a) as Ha. pose proof (nat_ascii_bounded b) as Hb.
  rewrite <- (ascii_nat_embedding a), <- (ascii_nat_embedding b).
  f_equal.
  destruct (Z.leb_spec 128 (Z.of_nat (nat_of_ascii a)));
    destruct (Z.leb_spec 128 (Z.of_nat (nat_of_ascii b))); lia.
Qed.

Lemma icompare_loop_cons (a b : ascii) (it ptr : string) :
  Poco.icompare_loop (String a it) (String b ptr) = 0 <->
  Poco.toLower a = Poco.toLower b /\ Poco.icompare_loop it ptr = 0.
Proof.
  simpl.
  destruct (Z.ltb_spec (Poco.char_value (Poco.toLower a)) (Poco.char_value (Poco.toLower b))).
  { split; [discriminate | intros [E _]; rewrite E in *; lia]. }
  destruct (Z.ltb_spec (Poco.char_value (Poco.toLower b)) (Poco.char_value (Poco.toLower a))).
  { split; [discriminate | intros [E _]; rewrite E in *; lia]. }
  split.
  - intros E; split; [apply char_value_inj; lia | exact E].
  - intros [_ E]; exact E.
Qed.

Lemma icompare_iprefix (p s : string) :
  Poco.icompare s 0 (String.length p) p = 0 <-> iprefix p s = true.
Proof.
  unfold Poco.icompare, iprefix.
  replace (if (String.length s <? 0)%nat then String.length s else 0%nat) with 0%nat
    by (destruct (String.length s); reflexivity).
  cbn [Nat.add].
  revert s; induction p as [|b p IH]; intros s.
  - simpl. destruct s; simpl; [tauto|].
    destruct (String.length s); simpl; tauto.
  - destruct s as [|a s].
    + simpl. split; discriminate.
    + specialize (IH s).
      cbn [String.length lower String.prefix].
      change (S (String.length s) <? S (String.length p))%nat
        with (String.length s <? String.length p)%nat.
      assert (Hsub : forall k, substring 0 (S k) (String a s) = String a (substring 0 k s))
        by reflexivity.
      replace (substring 0
                 (if (String.length s <? String.length p)%nat
                  then (S (String.length s) - 0)%nat else S (String.length p))
                 (String a s))
        with (String a (substring 0
                 (if (String.length s <? String.length p)%nat
                  then (String.length s - 0)%nat else String.length p) s)).
      2:{ destruct (String.length s <? String.length p)%nat; rewrite <- Hsub;
            f_equal; lia. }
      rewrite icompare_loop_cons, IH.
      destruct (ascii_dec (Poco.toLower b) (Poco.toLower a)) as [E|E].
      * rewrite E. tauto.
      * split; [intros [E' _]; congruence | discriminate].
Qed.

(** ** Numbers: the digits of [format] read back *)

Lemma digit_value_digit (d : N) : (d < 10)%N -> Poco.digit_value (Poco.digit d) = Some d.
Proof.
  intros H.
  assert (d = 0 \/ d = 1 \/ d = 2 \/ d = 3 \/ d = 4 \/ d = 5 \/ d = 6 \/ d = 7
          \/ d = 8 \/ d = 9)%N as C by lia.
  repeat (destruct C as [-> | C]; [reflexivity|]). subst; reflexivity.
Qed.

Lemma format_loop_S (fuel : nat) (n : N) (acc : string) :
  Poco.format_loop (S fuel) n acc =
  if (n / 10 =? 0)%N then String (Poco.digit (n mod 10)) acc
  else Poco.format_loop fuel (n / 10)%N (String (Poco.digit (n mod 10)) acc).
Proof. reflexivity. Qed.

Lemma format_loop_value (fuel : nat) :
  forall (n : N) (acc : string) (k v : N),
    (n < 10 ^ N.of_nat fuel)%N ->
    (forall a, Poco.decimal_loop acc a = Some (a * 10 ^ k + v)%N) ->
    Poco.decimal_loop (Poco.format_loop fuel n acc) 0 = Some (n * 10 ^ k + v)%N.
Proof.
  induction fuel as [|fuel IH]; intros n acc k v Hn Hacc.
  - simpl in Hn. assert (n = 0)%N as -> by lia. simpl. apply Hacc.
  - rewrite format_loop_S.
    assert (Hacc' : forall a,
      Poco.decimal_loop (String (Poco.digit (n mod 10)) acc) a =
      Some (a * 10 ^ (k + 1) + ((n mod 10) * 10 ^ k + v))%N).
    { intros a. cbn [Poco.decimal_loop].
      rewrite digit_value_digit by (apply N.mod_lt; lia).
      rewrite Hacc. f_equal. rewrite N.pow_add_r. lia. }
    pose proof (N.div_mod n 10 ltac:(lia)) as Hdm.
    destruct (N.eqb_spec (n / 10) 0) as [E|E].
    + rewrite Hacc'. f_equal. rewrite E in Hdm. lia.
    + rewrite (IH (n / 10)%N _ (k + 1)%N ((n mod 10) * 10 ^ k + v)%N); auto.
      * f_equal. rewrite N.pow_add_r. lia.
      * apply N.Div0.div_lt_upper_bound.
        rewrite Nat2N.inj_succ, N.pow_succ_r' in Hn. lia.
Qed.

Lemma format_loop_nonempty (fuel : nat) :
  forall n acc, acc <> "" -> Poco.format_loop fuel n acc <> "".
Proof.
  induction fuel as [|fuel IH]; intros n acc H; [exact H|].
  rewrite format_loop_S.
  destruct (n / 10 =? 0)%N; [discriminate|]. apply IH. discriminate.
Qed.

Lemma decimal_format (n : N) : (n < 10 ^ 10)%N -> Poco.decimal (Poco.format n) = Some n.
Proof.
  intros Hn. unfold Poco.decimal, Poco.format.
  assert (Hne : Poco.format_loop 10 n "" <> "").
  { rewrite format_loop_S. destruct (n / 10 =? 0)%N; [discriminate|].
    apply format_loop_nonempty. discriminate. }
  destruct (Poco.format_loop 10 n "") as [|c r] eqn:E; [congruence|].
  rewrite <- E.
  rewrite (format_loop_value 10 n "" 0 0)%N; [f_equal; lia | exact Hn |].
  intros a0. simpl. f_equal. lia.
Qed.

(** ** The transport set-up leaves the application alone *)

Lemma quiet_refl (s : State) : quiet s s.
Proof.
  repeat split. exists []. split; [symmetry; apply app_nil_r | reflexivity].
Qed.

Lemma quiet_trans (s1 s2 s3 : State) : quiet s1 s2 -> quiet s2 s3 -> quiet s1 s3.
Proof.
  intros (A1 & B1 & C1 & D1 & t1 & E1 & F1) (A2 & B2 & C2 & D2 & t2 & E2 & F2).
  repeat split; try congruence.
  exists (t1 ++ t2). split.
  - rewrite E2, E1. symmetry. apply app_assoc.
  - rewrite forallb_app, F1, F2. reflexivity.
Qed.

Lemma quietly_ret {A} (a : A) : quietly (mret a).
Proof. intros s. apply quiet_refl. Qed.

Lemma quietly_throw {A} (e : exn) : quietly (@throw A e).
Proof. intros s. apply quiet_refl. Qed.

Lemma quietly_bind {A B} (m : M A) (f : A -> M B) :
  quietly m -> (forall a, quietly (f a)) -> quietly (m ≫= f).
Proof.
  intros Hm Hf s. unfold mbind, M_bind.
  specialize (Hm s). destruct (m s) as [[a|e] s1]; simpl in *.
  - eapply quiet_trans; [exact Hm | apply Hf].
  - exact Hm.
Qed.

Lemma quietly_get_bind {A} (f : State -> M A) :
  (forall s, quietly (f s)) -> quietly (get ≫= f).
Proof. intros Hf s. apply (Hf s s). Qed.

Lemma quietly_emit (e : event) : setup_event e = true -> quietly (emit e).
Proof.
  intros He s. repeat split. exists [e]. split; [reflexivity|].
  simpl. rewrite He. reflexivity.
Qed.

Section Quiet.

Variable env : Env.

Lemma quietly_getString (key default : string) : quietly (getString key default).
Proof. apply quietly_get_bind. intros s. apply quietly_ret. Qed.

Lemma quietly_getInt (key : string) (default : Z) : quietly (getInt env key default).
Proof.
  apply quietly_get_bind. intros s.
  destruct (config s !! key) as [v|]; [|apply quietly_ret].
  destruct (parse_int env v); [apply quietly_ret | apply quietly_throw].
Qed.

Lemma quietly_getBool (key : string) (default : bool) : quietly (getBool env key default).
Proof.
  apply quietly_get_bind. intros s.
  destruct (config s !! key) as [v|]; [|apply quietly_ret].
  destruct (parse_bool env v); [apply quietly_ret | apply quietly_throw].
Qed.

Lemma quietly_rethrow (r : option exn) : quietly (rethrow r).
Proof. destruct r; [apply quietly_throw | apply quietly_ret]. Qed.

Lemma quietly_transportSetup : quietly (transportSetup env).
Proof.
  unfold transportSetup.
  repeat first
    [ apply quietly_getInt | apply quietly_getBool | apply quietly_getString
    | apply quietly_rethrow | apply quietly_ret
    | apply quietly_emit; reflexivity
    | match goal with |- quietly (if ?b then _ else _) => destruct b end
    | apply quietly_bind; [|intros ?] ].
Qed.

End Quiet.

(** ** [promptLogin] *)

Ltac run_M :=
  unfold cin_getline, echo, emit, modify, get, throw, lift, rethrow, displayHelp,
    getString, mbind, M_bind, mret, M_ret in *.

(** Running [promptLogin] on a state that is written out. *)
Ltac run_state :=
  cbv beta iota zeta delta
    [promptLogin cin_getline echo emit modify get mbind M_bind mret M_ret
     set_self set_cin set_terminal add_event with_username with_password
     self config cin terminal trace _username _password _helpRequested
     _localPort _remotePort _login _sshClient str_empty fst snd
     cin_after_username username_events password_events mode_off].

Section PromptLogin.

Variable env : Env.

Lemma promptLogin_spec (s : State) :
  promptLogin env s =
  (Normal tt,
   {| self :=
        with_password
          (if str_empty (_password (self s))
           then (getline (cin_after_username s) (_password (self s))).2
           else _password (self s))
          (with_username
             (if str_empty (_username (self s))
              then (getline (cin s) (_username (self s))).2
              else _username (self s))
             (self s));
      config := config s;
      cin := if str_empty (_password (self s))
             then (getline (cin_after_username s) (_password (self s))).1
             else cin_after_username s;
      terminal := if str_empty (_password (self s))
                  then Z.lor (mode_off env s) (echo_flag (os env))
                  else terminal s;
      trace := trace s ++ username_events s ++ password_events env s |}).
Proof.
  destruct s as [[h lp rp u p l c] cfg i m t].
  destruct u as [|a u], p as [|b p]; run_state;
    repeat match goal with
      | |- context [getline ?x ?y] => destruct (getline x y); run_state
      end;
    rewrite <- ?app_assoc, ?app_nil_r; reflexivity.
Qed.

End PromptLogin.

(** ** Every run of [main] is one of the outcomes *)

Lemma prompted_self (env : Env) (s s1 : State) :
  quiet s s1 ->
  let s2 := prompted env s s1 in
  _sshClient (self s2) = client_at s /\ _login (self s2) = _login (self s) /\
  _localPort (self s2) = _localPort (self s) /\
  _remotePort (self s2) = _remotePort (self s) /\
  _helpRequested (self s2) = _helpRequested (self s) /\
  config s2 = config s.
Proof.
  intros (A & B & _). unfold prompted. rewrite promptLogin_spec. simpl.
  rewrite A, B. repeat split.
Qed.

Lemma main_outcome (env : Env) (args : list string) (s : State) :
  outcome env args s (main env args s).1 (main env args s).2.
Proof.
  destruct (_helpRequested (self s)) eqn:Hh.
  { unfold main. run_M. rewrite Hh. simpl. apply HelpShown. now left. }
  destruct args as [|a rest].
  { unfold main. run_M. rewrite Hh. simpl. apply HelpShown. now right. }
  assert (Hs : session s (a :: rest)) by (split; [exact Hh | discriminate]).
  pose proof (quietly_transportSetup env s) as Hq.
  unfold main. run_M. rewrite Hh. simpl.
  destruct (transportSetup env s) as [[t|e] s1] eqn:Ht; simpl in Hq |- *.
  2:{ eapply SetupFailed; eauto. }
  pose proof (prompted_self env s s1 Hq) as Hp. simpl in Hp.
  destruct Hq as (Hself & Hcfg & _).
  rewrite Hcfg, Hself. fold (client_at s).
  destruct (str_empty (client_at s)) eqn:Hc; simpl.
  { eapply NoClient; eauto. }
  fold (set_self (with_sshClient (client_at s)) s1).
  fold (resolved s s1).
  destruct (promptLogin env (resolved s s1)) as [r s2] eqn:Hpl.
  assert (Hs2 : s2 = prompted env s s1) by (unfold prompted; rewrite Hpl; reflexivity).
  assert (Hr : r = Normal tt)
    by (pose proof (promptLogin_spec env (resolved s s1)) as E; rewrite Hpl in E;
        congruence).
  subst r. simpl.
  destruct (uri_parse env a) as [e|uri] eqn:Hu; simpl.
  { subst s2. eapply UriFailed; eauto. }
  destruct (forwarder_open env (_localPort (self s2)) (_remotePort (self s2)) uri
              (_username (self s2)) (_password (self s2)) t.1.1) as [e|port] eqn:Hf;
    simpl.
  { subst s2. eapply TunnelFailed; eauto. }
  subst s2. destruct Hp as (Hp1 & Hp2 & _).
  rewrite Hp1, Hp2. fold (client_args s (a :: rest) port).
  destruct (launch_wait env (client_at s) (client_args s (a :: rest) port))
    as [e|rc] eqn:Hl; simpl.
  - replace (add_event _ _) with (launched s (prompted env s s1) (a :: rest) t uri port).
    + eapply LaunchFailed; eauto.
    + unfold launched, launch_events, add_event. simpl.
      rewrite <- !app_assoc. reflexivity.
  - match goal with |- outcome _ _ _ _ (add_event ?e ?x) =>
      replace x with (launched s (prompted env s s1) (a :: rest) t uri port) end.
    + eapply ChildExited; eauto.
    + unfold launched, launch_events, add_event. simpl.
      rewrite <- !app_assoc. reflexivity.
Qed.

(** ** What a run of [main] adds to the trace *)

Lemma launches_app (a b : list event) : launches (a ++ b) = launches a ++ launches b.
Proof.
  induction a as [|e a IH]; [reflexivity|].
  destruct e; simpl; rewrite ?IH; reflexivity.
Qed.

Lemma no_launch_launches (t : list event) : no_launch t = true -> launches t = [].
Proof.
  induction t as [|e t IH]; [reflexivity|].
  unfold no_launch in *. simpl. destruct e; simpl; auto; discriminate.
Qed.

Lemma early_app (a b : list event) : early (a ++ b) = early a && early b.
Proof. apply forallb_app. Qed.

Lemma early_no_launch (t : list event) : early t = true -> no_launch t = true.
Proof.
  unfold early, no_launch. induction t as [|e t IH]; [reflexivity|].
  simpl. destruct (is_launch e); simpl; [discriminate|].
  destruct (is_open e); simpl; [discriminate | exact IH].
Qed.

Lemma early_no_open (t : list event) (e : event) :
  early t = true -> In e t -> is_open e = false /\ is_launch e = false.
Proof.
  unfold early. rewrite forallb_forall. intros H Hin.
  specialize (H e Hin). destruct (is_open e), (is_launch e); simpl in H; auto; discriminate.
Qed.

Lemma setup_early (t : list event) : forallb setup_event t = true -> early t = true.
Proof.
  unfold early. induction t as [|e t IH]; [reflexivity|].
  simpl. destruct e; simpl; auto; discriminate.
Qed.

Lemma quiet_early (s s1 : State) :
  quiet s s1 -> exists t, trace s1 = trace s ++ t /\ early t = true.
Proof.
  intros (_ & _ & _ & _ & t & E & F). exists t. split; [exact E | now apply setup_early].
Qed.

Lemma prompt_events_early (env : Env) (s : State) :
  early (username_events s ++ password_events env s) = true.
Proof.
  unfold username_events, password_events.
  destruct (str_empty (_username (self s))), (str_empty (_password (self s)));
    reflexivity.
Qed.

Lemma prompted_trace (env : Env) (s s1 : State) :
  trace (prompted env s s1) =
  trace s1 ++ username_events (resolved s s1) ++ password_events env (resolved s s1).
Proof. unfold prompted. rewrite promptLogin_spec. reflexivity. Qed.

Lemma prompted_early (env : Env) (s s1 : State) :
  quiet s s1 ->
  exists t, trace (prompted env s s1) = trace s ++ t /\ early t = true.
Proof.
  intros Hq. destruct (quiet_early s s1 Hq) as (t & E & F).
  exists (t ++ username_events (resolved s s1) ++ password_events env (resolved s s1)).
  split.
  - rewrite prompted_trace, E. symmetry. apply app_assoc.
  - rewrite early_app, F. apply prompt_events_early.
Qed.

Lemma transportSetup_quiet (env : Env) (s s1 : State) (r : result (Z * Z * Z)) :
  transportSetup env s = (r, s1) -> quiet s s1.
Proof.
  intros H. pose proof (quietly_transportSetup env s) as Hq.
  rewrite H in Hq. exact Hq.
Qed.

(** The events of a run: early ones only, or early ones, then the tunnel
    is opened and the client launched, then at most the closing log line. *)
Lemma outcome_trace (env : Env) (args : list string) (s s' : State) (r : result Z) :
  outcome env args s r s' ->
  exists pre,
    early pre = true /\
    (trace s' = trace s ++ pre \/
     exists s2 t uri port post,
       trace s' = trace s ++ pre ++ launch_events s s2 args t uri port ++ post /\
       early post = true /\
       session s args /\ str_empty (client_at s) = false).
Proof.
  intros H. destruct H as
    [ Hh | e s1 Hs Ht | t s1 Hs Ht Hc | t s1 e Hs Ht Hc Hu | t s1 uri e Hs Ht Hc Hu Hf
    | t s1 uri port e Hs Ht Hc Hu Hf Hl | t s1 uri port rc Hs Ht Hc Hu Hf Hl ];
    try (apply transportSetup_quiet in Ht).
  - exists [DisplayHelp]. split; [reflexivity | left; reflexivity].
  - destruct (quiet_early _ _ Ht) as (p & E & F). exists p. auto.
  - destruct (quiet_early _ _ Ht) as (p & E & F).
    exists (p ++ [LogError no_client_message]). split.
    + rewrite early_app, F. reflexivity.
    + left. simpl. rewrite E. symmetry. apply app_assoc.
  - destruct (prompted_early env _ _ Ht) as (p & E & F). exists p. auto.
  - destruct (prompted_early env _ _ Ht) as (p & E & F). exists p. auto.
  - destruct (prompted_early env _ _ Ht) as (p & E & F). exists p.
    split; [exact F|]. right.
    exists (prompted env s s1), t, uri, port, []. repeat split; try apply Hs; auto.
    cbn [trace launched]. rewrite E, app_nil_r. symmetry. apply app_assoc.
  - destruct (prompted_early env _ _ Ht) as (p & E & F). exists p.
    split; [exact F|]. right.
    exists (prompted env s s1), t, uri, port,
      [LogDebug ("SSH client terminated with exit code " +:+ format_int rc)].
    repeat split; try apply Hs; auto.
    cbn [trace add_event launched]. rewrite E, <- !app_assoc. reflexivity.
Qed.

(** The children of a run: none, or the one client with the vector that
    [sshArgs] builds for the port of the tunnel. *)
Lemma main_launches (env : Env) (args : list string) (s : State) :
  launches (trace (main env args s).2) = launches (trace s) \/
  exists port,
    session s args /\ str_empty (client_at s) = false /\
    launches (trace (main env args s).2) =
    launches (trace s) ++ [(client_at s, client_args s args port)].
Proof.
  destruct (outcome_trace _ _ _ _ _ (main_outcome env args s))
    as (pre & Hpre & [E | (s2 & t & uri & port & post & E & Hpost & Hs & Hc)]).
  - left. rewrite E, launches_app, (no_launch_launches pre), app_nil_r; auto.
    now apply early_no_launch.
  - right. exists port. repeat split; try apply Hs; auto.
    rewrite E, !launches_app, (no_launch_launches pre), (no_launch_launches post)
      by now apply early_no_launch.
    reflexivity.
Qed.

(** Splitting a list at its only launch. *)
Lemma split_at_launch (a post t1 t2 : list event) (c c' : string) (v v' : list string) :
  no_launch a = true -> no_launch post = true ->
  a ++ Launch c v :: post = t1 ++ Launch c' v' :: t2 ->
  t1 = a /\ c' = c /\ v' = v.
Proof.
  intros Ha Hp. revert t1. induction a as [|x a IH]; intros t1 E.
  - destruct t1 as [|y t1]; simpl in E.
    + inversion E. auto.
    + inversion E; subst. unfold no_launch in Hp.
      rewrite forallb_app in Hp. simpl in Hp.
      rewrite andb_false_r in Hp. discriminate.
  - destruct t1 as [|y t1]; simpl in E.
    + inversion E; subst. discriminate.
    + inversion E; subst.
      unfold no_launch in Ha. simpl in Ha. apply andb_true_iff in Ha as [_ Ha].
      destruct (IH Ha t1 H1) as (-> & -> & ->). auto.
Qed.

(** ** The argument vector *)

Lemma icompare_eqb (p s : string) :
  (Poco.icompare s 0 (String.length p) p =? 0) = iprefix p s.
Proof.
  pose proof (icompare_iprefix p s) as H.
  destruct (Z.eqb_spec (Poco.icompare s 0 (String.length p) p) 0) as [E|E];
    destruct (iprefix p s); try reflexivity.
  - apply H in E. discriminate.
  - exfalso. apply E, H. reflexivity.
Qed.

(** [sshArgs] with the classification written as the spec has it. *)
Lemma sshArgs_eq (c l : string) (port : Z) (args : list string) :
  sshArgs c port l args =
  [if iprefix "putty" c || iprefix "scp" c then "-P" else "-p";
   Poco.format (Z.to_N port)] ++
  (if negb (str_empty l) && negb (iprefix "scp" c) then ["-l"; l] else []) ++
  tail args ++
  (if iprefix "scp" c then [] else ["localhost"]).
Proof.
  unfold sshArgs.
  pose proof (icompare_eqb "putty" c) as Hp. pose proof (icompare_eqb "scp" c) as Hs.
  cbn [String.length] in Hp, Hs. rewrite Hp, Hs.
  destruct (iprefix "putty" c), (iprefix "scp" c), (str_empty l); simpl;
    rewrite ?app_nil_r, <- ?app_assoc; reflexivity.
Qed.

Lemma UInt16_range (z : Z) : 0 <= UInt16 z < 65536.
Proof. unfold UInt16. apply Z.mod_pos_bound. lia. Qed.

(** C2: the first element of the vector is "-P" exactly when the name of
    the client begins with "putty" or with "scp", whatever the case of the
    letters, and "-p" exactly when it does not; the second element is the
    local port of the tunnel in decimal digits. *)
Theorem port_flag_by_client_name (c l : string) (port : Z) (args : list string) :
  let v := sshArgs c (UInt16 port) l args in
  (v !! 0%nat = Some "-P" <-> iprefix "putty" c = true \/ iprefix "scp" c = true) /\
  (v !! 0%nat = Some "-p" <-> ~ (iprefix "putty" c = true \/ iprefix "scp" c = true)) /\
  v !! 1%nat = Some (Poco.format (Z.to_N (UInt16 port))) /\
  Poco.decimal (Poco.format (Z.to_N (UInt16 port))) = Some (Z.to_N (UInt16 port)).
Proof.
  intros v. subst v. rewrite sshArgs_eq. simpl.
  repeat split.
  - destruct (iprefix "putty" c), (iprefix "scp" c); simpl; auto; discriminate.
  - intros [H|H]; rewrite H; simpl; rewrite ?orb_true_r; reflexivity.
  - intros H [H1|H1]; rewrite H1 in H; simpl in H; rewrite ?orb_true_r in H;
      discriminate.
  - intros H. destruct (iprefix "putty" c), (iprefix "scp" c); simpl; auto;
      exfalso; apply H; auto.
  - apply decimal_format. pose proof (UInt16_range port). lia.
Qed.

(** C3: for a client whose name begins with "scp", in any case of the
    letters, the vector is the port flag, the port and the trailing
    arguments of the user and nothing else: whatever the login name, no
    "-l" is put in, and no "localhost" is put at the end. *)
Theorem scp_vector (c l : string) (port : Z) (args : list string) :
  iprefix "scp" c = true ->
  sshArgs c port l args = "-P" :: Poco.format (Z.to_N port) :: tail args.
Proof.
  intros H. rewrite sshArgs_eq, H, orb_true_r, andb_false_r. simpl.
  rewrite app_nil_r. reflexivity.
Qed.

Lemma scp_vector_witness :
  sshArgs "SCP" 49152 "root" ["https://device.example/"; "file.txt"; "remote:/tmp/"] =
  ["-P"; Poco.format 49152; "file.txt"; "remote:/tmp/"].
Proof. apply (scp_vector "SCP" "root" 49152). reflexivity. Defined.

(** C4: for a client that is not scp, a login name that is not empty is
    put in as "-l" and the name, right after the port flag and the port
    and right before the trailing arguments of the user; with an empty
    login name, whatever the client, there is no "-l". *)
Theorem login_pair (c l : string) (port : Z) (args : list string) :
  (iprefix "scp" c = false -> str_empty l = false ->
   sshArgs c port l args =
   [if iprefix "putty" c then "-P" else "-p"; Poco.format (Z.to_N port)] ++
   ["-l"; l] ++ tail args ++ ["localhost"]) /\
  sshArgs c port "" args =
  [if iprefix "putty" c || iprefix "scp" c then "-P" else "-p";
   Poco.format (Z.to_N port)] ++
  tail args ++ (if iprefix "scp" c then [] else ["localhost"]).
Proof.
  split.
  - intros H Hl. rewrite sshArgs_eq, H, Hl, orb_false_r. reflexivity.
  - rewrite sshArgs_eq. reflexivity.
Qed.

Lemma login_pair_witness :
  sshArgs "ssh" 49152 "root" ["https://device.example/"; "-v"] =
  ["-p"; Poco.format 49152; "-l"; "root"; "-v"; "localhost"].
Proof.
  apply (proj1 (login_pair "ssh" "root" 49152 ["https://device.example/"; "-v"]));
    reflexivity.
Defined.

(** The one launch of a run whose tunnel is opened. *)
Lemma outcome_launched (env : Env) (args : list string) (s s' s1 : State)
    (res : result Z) (t : Z * Z * Z) (uri : string) (port : Z) :
  outcome env args s res s' ->
  session s args ->
  transportSetup env s = (Normal t, s1) ->
  str_empty (client_at s) = false ->
  uri_parse env (hd "" args) = inr uri ->
  (let s2 := prompted env s s1 in
   forwarder_open env (_localPort (self s2)) (_remotePort (self s2)) uri
     (_username (self s2)) (_password (self s2)) t.1.1 = inr port) ->
  launches (trace s') = launches (trace s) ++ [(client_at s, client_args s args port)].
Proof.
  intros H [Hh Ha] Ht Hc Hu Hf. cbv zeta in Hf.
  assert (Hl : launches (trace (launched s (prompted env s s1) args t uri port)) =
               launches (trace s) ++ [(client_at s, client_args s args port)]).
  { destruct (prompted_early env s s1 (transportSetup_quiet _ _ _ _ Ht)) as (p & Ep & Fp).
    cbn [trace launched]. rewrite Ep, !launches_app.
    rewrite (no_launch_launches p) by now apply early_no_launch.
    rewrite app_nil_r. reflexivity. }
  destruct H as
    [ Hh' | e s1' Hs' Ht' | t' s1' Hs' Ht' Hc' | t' s1' e Hs' Ht' Hc' Hu'
    | t' s1' uri' e Hs' Ht' Hc' Hu' Hf'
    | t' s1' uri' port' e Hs' Ht' Hc' Hu' Hf' Hl'
    | t' s1' uri' port' rc Hs' Ht' Hc' Hu' Hf' Hl' ];
    try (destruct Hh'; congruence);
    try (rewrite Ht in Ht'; inversion Ht'; subst t' s1'; clear Ht');
    try congruence;
    try (rewrite Hu in Hu'; inversion Hu'; subst uri'; clear Hu');
    cbv zeta in *; try congruence.
  assert (port' = port) as -> by congruence.
  cbn [trace add_event]. rewrite launches_app, Hl. simpl. apply app_nil_r.
Qed.

(** C5: for a client that is not scp the vector ends with the trailing
    arguments of the user, as they were given and in their order, and then
    "localhost"; a run whose tunnel is opened launches the client once, with
    that vector for the local port of the forwarder; in particular, with the
    client "ssh", no login name and no trailing arguments, the launch is
    exactly ssh -p <local port of the forwarder> localhost. *)
Theorem trailing_then_localhost :
  (forall (c l : string) (port : Z) (args : list string),
     iprefix "scp" c = false ->
     exists front,
       sshArgs c port l args = front ++ tail args ++ ["localhost"] /\
       front = [if iprefix "putty" c then "-P" else "-p"; Poco.format (Z.to_N port)]
               ++ (if str_empty l then [] else ["-l"; l])) /\
  (forall (env : Env) (args : list string) (s s1 : State) (t : Z * Z * Z)
          (uri : string) (port : Z),
     session s args ->
     transportSetup env s = (Normal t, s1) ->
     str_empty (client_at s) = false ->
     iprefix "scp" (client_at s) = false ->
     uri_parse env (hd "" args) = inr uri ->
     (let s2 := prompted env s s1 in
      forwarder_open env (_localPort (self s2)) (_remotePort (self s2)) uri
        (_username (self s2)) (_password (self s2)) t.1.1 = inr port) ->
     launches (trace (main env args s).2) =
     launches (trace s) ++
     [(client_at s,
       [if iprefix "putty" (client_at s) then "-P" else "-p";
        Poco.format (Z.to_N (UInt16 port))] ++
       (if str_empty (_login (self s)) then [] else ["-l"; _login (self s)]) ++
       tail args ++ ["localhost"])]) /\
  (forall (env : Env) (text : string) (s s1 : State) (t : Z * Z * Z)
          (uri : string) (port : Z),
     _helpRequested (self s) = false ->
     transportSetup env s = (Normal t, s1) ->
     client_at s = "ssh" -> _login (self s) = "" ->
     uri_parse env text = inr uri ->
     (let s2 := prompted env s s1 in
      forwarder_open env (_localPort (self s2)) (_remotePort (self s2)) uri
        (_username (self s2)) (_password (self s2)) t.1.1 = inr port) ->
     launches (trace (main env [text] s).2) =
     launches (trace s) ++
     [("ssh", ["-p"; Poco.format (Z.to_N (UInt16 port)); "localhost"])]).
Proof.
  split; [|split].
  - intros c l port args H. eexists. split; [|reflexivity].
    rewrite sshArgs_eq, H, orb_false_r, andb_true_r.
    destruct (str_empty l); simpl; reflexivity.
  - intros env args s s1 t uri port Hs Ht Hc Hscp Hu Hf.
    rewrite (outcome_launched env args s _ s1 _ t uri port
               (main_outcome env args s) Hs Ht Hc Hu Hf).
    unfold client_args. rewrite sshArgs_eq, Hscp, orb_false_r, andb_true_r.
    destruct (str_empty (_login (self s))); reflexivity.
  - intros env text s s1 t uri port Hh Ht Hc Hl Hu Hf.
    assert (Hs : session s [text]) by (split; [exact Hh | discriminate]).
    rewrite (outcome_launched env [text] s _ s1 _ t uri port
               (main_outcome env [text] s) Hs Ht ltac:(rewrite Hc; reflexivity) Hu Hf).
    unfold client_args. rewrite Hc, Hl. reflexivity.
Qed.

Lemma trailing_then_localhost_witness :
  (exists front,
     sshArgs "ssh" 49152 "" ["https://device.example/"; "-v"; "-4"] =
     front ++ ["-v"; "-4"] ++ ["localhost"] /\
     front = ["-p"; Poco.format 49152] ++ []) /\
  launches (trace (main unix_env_without_tls ["https://device.example/"; "-v"]
                     (initial unix_env_without_tls ∅ "" 8)).2) =
  [("ssh", ["-p"; "49152"; "-v"; "localhost"])] /\
  launches (trace (main unix_env_without_tls ["https://device.example/"]
                     (initial unix_env_without_tls ∅ "" 8)).2) =
  [("ssh", ["-p"; "49152"; "localhost"])].
Proof.
  split; [|split].
  - apply (proj1 trailing_then_localhost "ssh" "" 49152
             ["https://device.example/"; "-v"; "-4"]). reflexivity.
  - assert (Ht : transportSetup unix_env_without_tls (initial unix_env_without_tls ∅ "" 8) =
                 (Normal (30, 300, 7200), initial unix_env_without_tls ∅ "" 8))
      by (vm_compute; reflexivity).
    pose proof (proj1 (proj2 trailing_then_localhost) unix_env_without_tls
                  ["https://device.example/"; "-v"]
                  (initial unix_env_without_tls ∅ "" 8)
                  (initial unix_env_without_tls ∅ "" 8)
                  (30, 300, 7200) "https://device.example/" 49152
                  ltac:(split; [reflexivity | discriminate]) Ht
                  ltac:(reflexivity) ltac:(reflexivity) ltac:(reflexivity)
                  ltac:(vm_compute; reflexivity)) as H.
    vm_compute in H. vm_compute. exact H.
  - assert (Ht : transportSetup unix_env_without_tls (initial unix_env_without_tls ∅ "" 8) =
                 (Normal (30, 300, 7200), initial unix_env_without_tls ∅ "" 8))
      by (vm_compute; reflexivity).
    pose proof (proj2 (proj2 trailing_then_localhost) unix_env_without_tls
                  "https://device.example/"
                  (initial unix_env_without_tls ∅ "" 8)
                  (initial unix_env_without_tls ∅ "" 8)
                  (30, 300, 7200) "https://device.example/" 49152
                  ltac:(reflexivity) Ht ltac:(reflexivity) ltac:(reflexivity)
                  ltac:(reflexivity) ltac:(vm_compute; reflexivity)) as H.
    vm_compute in H. vm_compute. exact H.
Defined.

(** ** The way through [main] *)

Lemma main_help (env : Env) (args : list string) (s : State) :
  _helpRequested (self s) = true \/ args = [] ->
  main env args s = (Normal EXIT_OK, add_event DisplayHelp s).
Proof.
  intros H. unfold main. run_M.
  destruct H as [-> | ->]; [reflexivity|]. rewrite orb_true_r. reflexivity.
Qed.

Lemma run_options (env : Env) (opts : list (string * string)) (args : list string)
    (s : State) :
  run env opts args s =
  match processOptions env opts s with
  | (Normal _, s') => main env args (set_config (load_default_configuration env) s')
  | (Thrown e, s') => (Thrown e, s')
  end.
Proof.
  unfold run, initialize, modify, mbind, M_bind.
  destruct (processOptions env opts s) as [[[]|e] s']; reflexivity.
Qed.

Lemma processOptions_none (env : Env) (s : State) :
  processOptions env [] s = (Normal tt, s).
Proof. reflexivity. Qed.

Lemma processOptions_help (env : Env) (value : string) (s : State) :
  processOptions env [("help", value)] s =
  (Normal tt, set_self (with_helpRequested true) s).
Proof. reflexivity. Qed.

(** C10: called with no argument at all and no option, the program reports
    no error: it shows the help and returns 0, and that is to the last
    event what it does when the help is asked for with -h. *)
Theorem no_arguments_is_help (env : Env) (cfg : gmap string string) (input : string)
    (mode : Z) (value : string) (args : list string) :
  let bare := run env [] [] (initial env cfg input mode) in
  let help := run env [("help", value)] args (initial env cfg input mode) in
  bare.1 = Normal EXIT_OK /\ trace bare.2 = [DisplayHelp] /\
  help.1 = bare.1 /\ trace help.2 = trace bare.2 /\
  terminal help.2 = terminal bare.2 /\ cin help.2 = cin bare.2.
Proof.
  rewrite !run_options, processOptions_help, processOptions_none.
  rewrite !main_help by (simpl; auto).
  repeat split.
Qed.

(** ** Errors before the launch *)

Lemma no_new_launch (s s' : State) (pre : list event) :
  early pre = true -> trace s' = trace s ++ pre ->
  launches (trace s') = launches (trace s).
Proof.
  intros H E. rewrite E, launches_app, (no_launch_launches pre), app_nil_r; auto.
  now apply early_no_launch.
Qed.

Lemma main_no_client (env : Env) (args : list string) (s s1 : State) (t : Z * Z * Z) :
  session s args ->
  transportSetup env s = (Normal t, s1) ->
  str_empty (client_at s) = true ->
  main env args s =
  (Normal EXIT_CONFIG, add_event (LogError no_client_message) (resolved s s1)).
Proof.
  intros [Hh Ha] Ht Hc.
  pose proof (transportSetup_quiet _ _ _ _ Ht) as (Hself & Hcfg & _).
  unfold main. run_M. rewrite Hh.
  destruct args as [|a rest]; [congruence|]. simpl.
  rewrite Ht. simpl. rewrite Hcfg, Hself. fold (client_at s). rewrite Hc. reflexivity.
Qed.

(** C8: when the run comes to resolve the client and the name it gets is
    empty, no child process is started, and [main] returns the
    configuration error status, which is not the status of success. *)
Theorem no_client_is_config_error (env : Env) (args : list string) (s s1 : State)
    (t : Z * Z * Z) :
  session s args ->
  transportSetup env s = (Normal t, s1) ->
  str_empty (client_at s) = true ->
  (main env args s).1 = Normal EXIT_CONFIG /\
  EXIT_CONFIG <> EXIT_OK /\
  launches (trace (main env args s).2) = launches (trace s) /\
  early (drop (length (trace s)) (trace (main env args s).2)) = true.
Proof.
  intros Hs Ht Hc. rewrite (main_no_client env args s s1 t Hs Ht Hc).
  destruct (quiet_early _ _ (transportSetup_quiet _ _ _ _ Ht)) as (p & E & F).
  assert (Et : trace (add_event (LogError no_client_message) (resolved s s1)) =
               trace s ++ (p ++ [LogError no_client_message])).
  { simpl. rewrite E. symmetry. apply app_assoc. }
  assert (Fe : early (p ++ [LogError no_client_message]) = true)
    by (rewrite early_app, F; reflexivity).
  repeat split.
  - discriminate.
  - eapply no_new_launch; eauto.
  - cbn [snd]. rewrite Et, drop_app_length. exact Fe.
Qed.

Lemma no_client_is_config_error_witness :
  (main bare_windows_env ["https://device.example/"]
     (initial bare_windows_env ∅ "" 4)).1 = Normal EXIT_CONFIG /\
  EXIT_CONFIG <> EXIT_OK /\
  launches (trace (main bare_windows_env ["https://device.example/"]
                     (initial bare_windows_env ∅ "" 4)).2) =
  launches (trace (initial bare_windows_env ∅ "" 4)) /\
  early (drop (length (trace (initial bare_windows_env ∅ "" 4)))
           (trace (main bare_windows_env ["https://device.example/"]
                     (initial bare_windows_env ∅ "" 4)).2)) = true.
Proof.
  apply (no_client_is_config_error bare_windows_env ["https://device.example/"]
           (initial bare_windows_env ∅ "" 4) (initial bare_windows_env ∅ "" 4)
           (30, 300, 7200)).
  - split; [reflexivity | discriminate].
  - reflexivity.
  - reflexivity.
Defined.

Lemma main_tunnel_fails (env : Env) (args : list string) (s : State) (e : exn) :
  tunnel_fails env args s e ->
  exists s1 r, transportSetup env s = (r, s1) /\
               main env args s = (Thrown e, prompted env s s1).
Proof.
  intros (Hs & Hc & t & s1 & Ht & Hfail).
  exists s1, (Normal t). split; [exact Ht|].
  pose proof (main_outcome env args s) as H.
  destruct (main env args s) as [r s']. simpl in H.
  inversion H; subst;
    try match goal with
      | H1 : _ \/ _ |- _ => destruct Hs as [Hh Ha]; destruct H1; congruence
      end;
    try congruence;
    repeat match goal with
      | H1 : transportSetup env s = _, H2 : transportSetup env s = _ |- _ =>
          rewrite H1 in H2; inversion H2; subst; clear H2
      end;
    destruct Hfail as [Hu | (uri' & Hu & Hf)]; simpl in *; try congruence;
    repeat match goal with
      | H1 : uri_parse env ?a = _, H2 : uri_parse env ?a = _ |- _ =>
          rewrite H1 in H2; inversion H2; subst; clear H2
      end;
    congruence.
Qed.

Lemma bad_uri_tunnel_fails :
  tunnel_fails bad_uri_env ["device"] (initial bad_uri_env ∅ "" 8)
    (Exception "SyntaxException").
Proof.
  split; [split; [reflexivity | discriminate]|].
  split; [reflexivity|].
  exists (30, 300, 7200), (initial bad_uri_env ∅ "" 8).
  split; [reflexivity | left; reflexivity].
Qed.

(** C9, as the claim has it, fails: when the constructor of the URI throws,
    [main] does not return the configuration error status, it does not
    return at all; the exception leaves it. *)
Lemma tunnel_failure_is_thrown :
  tunnel_fails bad_uri_env ["device"] (initial bad_uri_env ∅ "" 8)
    (Exception "SyntaxException") /\
  (main bad_uri_env ["device"] (initial bad_uri_env ∅ "" 8)).1 =
  Thrown (Exception "SyntaxException") /\
  (main bad_uri_env ["device"] (initial bad_uri_env ∅ "" 8)).1 <>
  Normal EXIT_CONFIG.
Proof.
  split; [exact bad_uri_tunnel_fails | split; [reflexivity | discriminate]].
Qed.

(** C9, amended: when opening the tunnel fails, the exception of the failed
    constructor leaves [main], which returns no status, and no child
    process is started; and in every run, whatever its end, a launch comes
    only after the tunnel was opened. *)
Theorem launch_only_after_open (env : Env) (args : list string) (s : State) :
  (forall e, tunnel_fails env args s e ->
     (main env args s).1 = Thrown e /\
     launches (trace (main env args s).2) = launches (trace s)) /\
  (forall t1 t2 c v,
     trace (main env args s).2 = trace s ++ t1 ++ Launch c v :: t2 ->
     exists o, In o t1 /\ is_open o = true).
Proof.
  split.
  - intros e Hf.
    destruct (main_tunnel_fails env args s e Hf) as (s1 & r & Ht & E).
    rewrite E. split; [reflexivity|]. simpl.
    destruct (prompted_early env s s1 (transportSetup_quiet _ _ _ _ Ht)) as (p & Ep & F).
    eapply no_new_launch; eauto.
  - intros t1 t2 c v E.
    destruct (outcome_trace _ _ _ _ _ (main_outcome env args s))
      as (pre & Hpre & [E' | (s2 & t & uri & port & post & E' & Hpost & _)]);
      rewrite E' in E; apply app_inv_head in E.
    + exfalso.
      assert (Hin : In (Launch c v) pre) by (rewrite E; apply in_elt).
      destruct (early_no_open pre _ Hpre Hin) as [_ Hl]. discriminate.
    + unfold launch_events in E.
      set (o := OpenForwarder (_localPort (self s2)) (_remotePort (self s2)) uri
                  (_username (self s2)) (_password (self s2)) t.1.1) in *.
      set (mid := [o; SetRemoteTimeout t.1.2; SetLocalTimeout t.2;
                   LogDebug ("Launching SSH client: " +:+ client_at s)]) in *.
      assert (E2 : (pre ++ mid) ++ Launch (client_at s) (client_args s args port) :: post =
                   t1 ++ Launch c v :: t2).
      { rewrite <- E. subst mid. rewrite <- !app_assoc. reflexivity. }
      apply split_at_launch in E2 as (-> & _ & _).
      * exists o. split; [|reflexivity].
        apply in_or_app. right. left. reflexivity.
      * unfold no_launch. rewrite forallb_app.
        apply early_no_launch in Hpre. unfold no_launch in Hpre.
        rewrite Hpre. reflexivity.
      * now apply early_no_launch.
Qed.

Lemma launch_only_after_open_witness :
  ((main bad_uri_env ["device"] (initial bad_uri_env ∅ "" 8)).1 =
   Thrown (Exception "SyntaxException") /\
   launches (trace (main bad_uri_env ["device"] (initial bad_uri_env ∅ "" 8)).2) =
   launches (trace (initial bad_uri_env ∅ "" 8))) /\
  (exists o,
     In o [Stdout "Remote Manager Username: "; Getline;
           Stdout "Remote Manager Password: "; SetTerminalMode 0; Getline;
           SetTerminalMode 8; Stdout nl;
           OpenForwarder 0 22 "device" "" "" 30; SetRemoteTimeout 300;
           SetLocalTimeout 7200; LogDebug "Launching SSH client: ssh"] /\
     is_open o = true).
Proof.
  split.
  - apply (proj1 (launch_only_after_open bad_uri_env ["device"]
                    (initial bad_uri_env ∅ "" 8))).
    exact bad_uri_tunnel_fails.
  - apply (proj2 (launch_only_after_open
                    (unix_env_without_tls) ["device"]
                    (initial unix_env_without_tls ∅ "" 8))
             _ [LogDebug "SSH client terminated with exit code 0"]
             "ssh" ["-p"; "49152"; "localhost"]).
    reflexivity.
Defined.

(** ** The options and the client *)

(** The cases of [handleOption]: the option is taken apart by its name,
    its validator and its callback are run. *)
Ltac handle_cases env name value :=
  unfold handleOption, getOption, defineOptions; cbn [List.find fullName];
  repeat match goal with
    | |- context [String.eqb ?k name] =>
        destruct (String.eqb_spec k name) as [?|?]; [subst name|]
    end;
  unfold validate, handleHelp, handleConfig, handleClient, handleSCP, handleLocalPort,
    handleRemotePort, handleUsername, handlePassword, handleLogin, handleDefine,
    defineProperty, setString, parseUnsigned;
  run_M; cbv beta iota zeta; cbn [validator callback]; cbv beta iota zeta;
  try (destruct (parse_int env value) as [parsed|] eqn:Hparsed;
       [destruct ((parsed <? 1) || (65535 <? parsed)) eqn:Hrange|];
       cbv beta iota zeta);
  try (destruct (parse_unsigned env value) eqn:Hunsigned; cbv beta iota zeta);
  try (destruct (index 0 "=" value); cbv beta iota zeta).

(** What handling an option does to the client, and that it leaves the
    outside alone. *)
Lemma handleOption_client (env : Env) (name value : string) (s : State) :
  let r := handleOption env name value s in
  trace r.2 = trace s /\ cin r.2 = cin s /\ terminal r.2 = terminal s /\
  _sshClient (self r.2) =
  (if String.eqb name "ssh-client" then value
   else if String.eqb name "scp" then "scp"
   else _sshClient (self s)).
Proof.
  assert (H1 : forall k, k <> name -> String.eqb name k = false)
    by (intros k Hk; apply String.eqb_neq; congruence).
  handle_cases env name value; simpl; rewrite ?H1 by assumption; repeat split.
Qed.

Lemma getOption_state (env : Env) (name : string) (s s0 : State) (r : result Option) :
  getOption env name s = (r, s0) -> s0 = s.
Proof.
  unfold getOption. destruct (List.find _ _); intros E; inversion E; reflexivity.
Qed.

Lemma handleOption_thrown (env : Env) (name value : string) (s s1 : State) (e : exn) :
  handleOption env name value s = (Thrown e, s1) -> s1 = s.
Proof.
  intros Eh.
  assert (Hs : (handleOption env name value s).2 = s1) by (rewrite Eh; reflexivity).
  assert (Hr : (handleOption env name value s).1 = Thrown e) by (rewrite Eh; reflexivity).
  rewrite <- Hs. clear Eh Hs. revert Hr.
  handle_cases env name value; cbn [fst snd]; intros Hr;
    solve [reflexivity | discriminate].
Qed.

Lemma process_unfold (env : Env) (sp : list string) (name value : string)
    (opts : list (string * string)) (s : State) :
  process env sp ((name, value) :: opts) s =
  match getOption env name s with
  | (Normal o, s0) =>
      if negb (repeatable o) && existsb (String.eqb name) sp
      then (Thrown (Exception "DuplicateOptionException"), s0)
      else match handleOption env name value s0 with
           | (Normal _, s1) => process env (name :: sp) opts s1
           | (Thrown e, s1) => (Thrown e, s1)
           end
  | (Thrown e, s0) => (Thrown e, s0)
  end.
Proof.
  cbn [process]. unfold mbind, M_bind.
  destruct (getOption env name s) as [[o|e] s0]; [|reflexivity].
  destruct (negb (repeatable o) && existsb (String.eqb name) sp); reflexivity.
Qed.

(** One option of the list: either it was found, was no forbidden
    repetition and was handled, and the rest follows, or an exception ends
    the handling and leaves the state as it was before this option. *)
Lemma process_cons (env : Env) (sp : list string) (name value : string)
    (opts : list (string * string)) (s : State) :
  (exists o s1,
     getOption env name s = (Normal o, s) /\
     negb (repeatable o) && existsb (String.eqb name) sp = false /\
     handleOption env name value s = (Normal tt, s1) /\
     process env sp ((name, value) :: opts) s = process env (name :: sp) opts s1) \/
  (exists e, process env sp ((name, value) :: opts) s = (Thrown e, s)).
Proof.
  rewrite process_unfold.
  destruct (getOption env name s) as [[o|e] s0] eqn:Eg;
    pose proof (getOption_state _ _ _ _ _ Eg); subst s0.
  2:{ right. exists e. reflexivity. }
  destruct (negb (repeatable o) && existsb (String.eqb name) sp) eqn:Ed.
  { right. eexists. reflexivity. }
  destruct (handleOption env name value s) as [[[]|e] s1] eqn:Eh.
  - left. exists o, s1. split; [reflexivity | split; [exact Ed | split; reflexivity]].
  - right. exists e. rewrite (handleOption_thrown _ _ _ _ _ _ Eh). reflexivity.
Qed.

Lemma process_client (env : Env) (opts : list (string * string)) :
  forall (sp : list string) (s : State) (last : option string) (d : string),
    _sshClient (self s) = default d last ->
    let r := process env sp opts s in
    trace r.2 = trace s /\ cin r.2 = cin s /\ terminal r.2 = terminal s /\
    (r.1 = Normal tt -> _sshClient (self r.2) = default d (client_option opts last)).
Proof.
  induction opts as [|[name value] opts IH]; intros sp s last d Hd.
  - simpl. auto.
  - cbn [client_option].
    destruct (process_cons env sp name value opts s)
      as [(o & s1 & _ & _ & Eh & ->)|(e & ->)].
    + pose proof (handleOption_client env name value s) as (Ht & Hc & Hm & Hs).
      rewrite Eh in Ht, Hc, Hm, Hs. cbn [snd] in *.
      specialize (IH (name :: sp) s1
        (if String.eqb name "ssh-client" then Some value
         else if String.eqb name "scp" then Some "scp" else last) d).
      destruct IH as (Ht' & Hc' & Hm' & Hs').
      { rewrite Hs. destruct (String.eqb name "ssh-client"); [reflexivity|].
        destruct (String.eqb name "scp"); [reflexivity | exact Hd]. }
      repeat split; try congruence. exact Hs'.
    + cbn [fst snd]. repeat split; auto. discriminate.
Qed.

Lemma processOptions_client (env : Env) (opts : list (string * string)) :
  forall (s : State) (last : option string) (d : string),
    _sshClient (self s) = default d last ->
    let r := processOptions env opts s in
    trace r.2 = trace s /\ cin r.2 = cin s /\ terminal r.2 = terminal s /\
    (r.1 = Normal tt -> _sshClient (self r.2) = default d (client_option opts last)).
Proof. intros s last d Hd. exact (process_client env opts [] s last d Hd). Qed.

Lemma initial_client (env : Env) (cfg : gmap string string) (input : string) (mode : Z) :
  _sshClient (self (initial env cfg input mode)) =
  default (_sshClient (WebTunnelSSH env)) None.
Proof. reflexivity. Qed.

Lemma run_eq (env : Env) (opts : list (string * string)) (args : list string)
    (s : State) :
  run env opts args s =
  match processOptions env opts s with
  | (Normal _, s') => main env args (set_config (load_default_configuration env) s')
  | (Thrown e, s') => (Thrown e, s')
  end.
Proof.
  unfold run, initialize, modify, mbind, M_bind.
  destruct (processOptions env opts s) as [[[]|e] s']; reflexivity.
Qed.

(** C1, as the claim has it, fails: with --ssh-client plink on the command
    line and ssh.executable = ssh in the configuration, the client that is
    launched is ssh. *)
Lemma option_does_not_win :
  client_option [("ssh-client", "plink")] None = Some "plink" /\
  ({[ "ssh.executable" := "ssh" ]} : gmap string string) !! "ssh.executable" = Some "ssh" /\
  launches (trace (run unix_env [("ssh-client", "plink")] ["https://device.example/"]
                     (initial unix_env {[ "ssh.executable" := "ssh" ]} "" 8)).2) =
  [("ssh", ["-p"; "49152"; "localhost"])] /\
  "ssh" <> "plink".
Proof. repeat split; try (vm_compute; reflexivity). discriminate. Qed.

(** C1, amended: the client is resolved in one place, line 366 of [main],
    and there the configuration comes first: the value of ssh.executable
    when the configuration has that key, whatever the options say; without
    the key, the value of the last --ssh-client or --scp option; without
    such an option, the client the constructor found. The client so resolved
    is the one that is launched and the one the argument vector is built
    for. *)
Theorem configuration_before_option (env : Env) (opts : list (string * string))
    (args : list string) (cfg : gmap string string) (input : string) (mode : Z)
    (c : string) (v : list string) :
  In (c, v) (launches (trace (run env opts args (initial env cfg input mode)).2)) ->
  exists s1,
    (processOptions env opts ≫= λ _, initialize env) (initial env cfg input mode) =
    (Normal tt, s1) /\
    c = default (default (_sshClient (WebTunnelSSH env)) (client_option opts None))
          (config s1 !! "ssh.executable") /\
    launches (trace (run env opts args (initial env cfg input mode)).2) = [(c, v)] /\
    exists port, v = sshArgs c (UInt16 port) (_login (self s1)) args.
Proof.
  rewrite run_eq.
  pose proof (processOptions_client env opts (initial env cfg input mode) None
                (_sshClient (WebTunnelSSH env)) (initial_client env cfg input mode))
    as (Ht & _ & _ & Hs).
  unfold initialize, modify, mbind, M_bind.
  destruct (processOptions env opts (initial env cfg input mode)) as [[[]|e] s'];
    simpl in Ht, Hs.
  2:{ cbn [snd]. rewrite Ht. simpl. tauto. }
  specialize (Hs eq_refl).
  set (s1 := set_config (load_default_configuration env) s').
  assert (Hc : client_at s1 =
               default (default (_sshClient (WebTunnelSSH env)) (client_option opts None))
                 (config s1 !! "ssh.executable")).
  { unfold client_at. destruct (config s1 !! "ssh.executable"); simpl; auto. }
  destruct (main_launches env args s1) as [E | (port & _ & _ & E)];
    rewrite E; cbn [trace s1 set_config]; rewrite Ht; simpl; [tauto|].
  intros [H|[]]. inversion H; subst c v.
  exists s1. repeat split; auto.
  exists port. unfold client_args. reflexivity.
Qed.

Lemma configuration_before_option_witness :
  exists s1,
    (processOptions unix_env [("ssh-client", "plink")] ≫= λ _, initialize unix_env)
      (initial unix_env {[ "ssh.executable" := "ssh" ]} "" 8) = (Normal tt, s1) /\
    "ssh" = default (default (_sshClient (WebTunnelSSH unix_env))
                       (client_option [("ssh-client", "plink")] None))
              (config s1 !! "ssh.executable") /\
    launches (trace (run unix_env [("ssh-client", "plink")] ["https://device.example/"]
                       (initial unix_env {[ "ssh.executable" := "ssh" ]} "" 8)).2) =
    [("ssh", ["-p"; "49152"; "localhost"])] /\
    exists port,
      ["-p"; "49152"; "localhost"] =
      sshArgs "ssh" (UInt16 port) (_login (self s1)) ["https://device.example/"].
Proof.
  apply (configuration_before_option unix_env [("ssh-client", "plink")]
           ["https://device.example/"] {[ "ssh.executable" := "ssh" ]} "" 8
           "ssh" ["-p"; "49152"; "localhost"]).
  vm_compute. left. reflexivity.
Defined.

(** ** The echo of the terminal *)

Lemma echo_off (m f : Z) : Z.land (Z.land m (Z.lnot f)) f = 0.
Proof.
  rewrite <- Z.land_assoc, (Z.land_comm (Z.lnot f) f), Z.land_lnot_diag.
  apply Z.land_0_r.
Qed.

Lemma echo_on (m f : Z) : Z.land (Z.lor m f) f = f.
Proof.
  apply Z.bits_inj'. intros n _.
  rewrite Z.land_spec, Z.lor_spec.
  destruct (Z.testbit m n), (Z.testbit f n); reflexivity.
Qed.

Lemma echo_back (m f : Z) : Z.land m f = f -> Z.lor (Z.land m (Z.lnot f)) f = m.
Proof.
  intros H. apply Z.bits_inj'. intros n Hn.
  apply (f_equal (fun z => Z.testbit z n)) in H.
  rewrite Z.land_spec in H.
  rewrite Z.lor_spec, Z.land_spec, Z.lnot_spec by exact Hn.
  destruct (Z.testbit m n), (Z.testbit f n); simpl in *; congruence.
Qed.

Lemma outcome_terminal (env : Env) (args : list string) (s s' : State) (r : result Z) :
  outcome env args s r s' ->
  terminal s' = terminal s \/
  terminal s' = Z.lor (mode_off env s) (echo_flag (os env)).
Proof.
  assert (Hp : forall s1, quiet s s1 ->
            terminal (prompted env s s1) = terminal s \/
            terminal (prompted env s s1) = Z.lor (mode_off env s) (echo_flag (os env))).
  { intros s1 (_ & _ & _ & Hm & _). unfold prompted. rewrite promptLogin_spec.
    unfold mode_off. simpl. rewrite Hm.
    destruct (str_empty (_password (self s1))); auto. }
  intros H. destruct H as
    [ Hh | e s1 Hs Ht | t s1 Hs Ht Hc | t s1 e Hs Ht Hc Hu | t s1 uri e Hs Ht Hc Hu Hf
    | t s1 uri port e Hs Ht Hc Hu Hf Hl | t s1 uri port rc Hs Ht Hc Hu Hf Hl ];
    try (apply transportSetup_quiet in Ht); simpl; auto.
  - left. apply Ht.
  - left. apply Ht.
Qed.

(** C6: [promptLogin] always returns. When it asks for the password, the
    echo is switched off after the prompt was written and before the line
    is read, and it is switched on again after the read, whatever the read
    gave, also on a stream at its end or in a failed state; the mode of a
    terminal that echoed before is then what it was. When it does not ask,
    the terminal is not touched. A terminal that echoes when [main] is
    entered echoes when [main] is left, by return or by exception. *)
Theorem echo_restored (env : Env) (s : State) :
  let s' := (promptLogin env s).2 in
  (promptLogin env s).1 = Normal tt /\
  (str_empty (_password (self s)) = true ->
   trace s' = trace s ++ username_events s ++
              [Stdout "Remote Manager Password: "; SetTerminalMode (mode_off env s);
               Getline; SetTerminalMode (terminal s'); Stdout nl] /\
   echo_disabled env (mode_off env s) /\
   echo_enabled env (terminal s') /\
   (echo_enabled env (terminal s) -> terminal s' = terminal s)) /\
  (str_empty (_password (self s)) = false ->
   terminal s' = terminal s /\ trace s' = trace s ++ username_events s) /\
  (forall args, echo_enabled env (terminal s) ->
                echo_enabled env (terminal (main env args s).2)).
Proof.
  intros s'. subst s'. rewrite promptLogin_spec. cbn [fst snd trace terminal].
  split; [reflexivity|]. split; [|split].
  - intros Hp. unfold password_events. rewrite Hp.
    repeat split.
    + apply echo_off.
    + apply echo_on.
    + intros He. apply echo_back. exact He.
  - intros Hp. unfold password_events. rewrite Hp, app_nil_r. auto.
  - intros args He.
    destruct (outcome_terminal _ _ _ _ _ (main_outcome env args s)) as [E|E];
      rewrite E; [exact He | apply echo_on].
Qed.

(** The witness: the standard input is at its end, both reads fail. *)
Lemma echo_restored_witness :
  let s := initial unix_env ∅ "" 8 in
  let s' := (promptLogin unix_env s).2 in
  (trace s' = [Stdout "Remote Manager Username: "; Getline;
               Stdout "Remote Manager Password: "; SetTerminalMode 0;
               Getline; SetTerminalMode 8; Stdout nl] /\
   echo_disabled unix_env 0 /\ echo_enabled unix_env 8 /\ terminal s' = 8) /\
  failbit (cin s') = true /\
  echo_enabled unix_env
    (terminal (main unix_env ["https://device.example/"] s).2).
Proof.
  cbv zeta.
  pose proof (echo_restored unix_env (initial unix_env ∅ "" 8)) as (_ & H & _ & Hm).
  split; [|split].
  - destruct (H eq_refl) as (Ht & Hd & He & Hb).
    split; [exact Ht | split; [exact Hd | split; [exact He | apply Hb; reflexivity]]].
  - reflexivity.
  - apply Hm. reflexivity.
Defined.

(** ** The prompts *)

Lemma prompts_app (text : string) (a b : list event) :
  prompts text (a ++ b) = (prompts text a + prompts text b)%nat.
Proof. unfold prompts. rewrite List.filter_app, length_app. reflexivity. Qed.

Lemma prompts_events (env : Env) (s : State) :
  prompts "Remote Manager Username: " (password_events env s) = 0%nat /\
  prompts "Remote Manager Username: " (username_events s) =
    (if str_empty (_username (self s)) then 1 else 0)%nat /\
  prompts "Remote Manager Password: " (password_events env s) =
    (if str_empty (_password (self s)) then 1 else 0)%nat /\
  prompts "Remote Manager Password: " (username_events s) = 0%nat.
Proof.
  unfold username_events, password_events.
  destruct (str_empty (_username (self s))), (str_empty (_password (self s)));
    repeat split.
Qed.

(** C7: [promptLogin] writes the prompt for the username once when the
    username is empty and not at all when it is not, and the same for the
    password; each prompt is followed by one read, whose line becomes the
    value, and an empty line gives the empty value: nothing is asked twice
    and [promptLogin] returns. *)
Theorem prompts_only_for_missing (env : Env) (s : State) :
  let r := promptLogin env s in
  r.1 = Normal tt /\
  prompts "Remote Manager Username: " (trace r.2) =
    (prompts "Remote Manager Username: " (trace s) +
     if str_empty (_username (self s)) then 1 else 0)%nat /\
  prompts "Remote Manager Password: " (trace r.2) =
    (prompts "Remote Manager Password: " (trace s) +
     if str_empty (_password (self s)) then 1 else 0)%nat /\
  trace r.2 = trace s ++ username_events s ++ password_events env s /\
  _username (self r.2) =
    (if str_empty (_username (self s)) then (getline (cin s) "").2
     else _username (self s)) /\
  _password (self r.2) =
    (if str_empty (_password (self s)) then (getline (cin_after_username s) "").2
     else _password (self s)) /\
  (forall rest str,
     getline {| buffer := String "010" rest; eofbit := false; failbit := false |} str =
     ({| buffer := rest; eofbit := false; failbit := false |}, "")).
Proof.
  intros r. subst r. rewrite promptLogin_spec. cbn [fst snd trace self].
  repeat split.
  - rewrite !prompts_app, (proj1 (prompts_events env s)). fold (username_events s).
    rewrite (proj1 (proj2 (prompts_events env s))). lia.
  - rewrite !prompts_app, (proj1 (proj2 (proj2 (prompts_events env s)))).
    fold (username_events s).
    rewrite (proj2 (proj2 (proj2 (prompts_events env s)))). lia.
  - simpl. destruct (_username (self s)); reflexivity.
  - simpl. destruct (_password (self s)); reflexivity.
Qed.

(** ** Runs of the test bed *)

Example run_ssh :
  run unix_env_without_tls [] ["https://device.example/"]
    (initial unix_env_without_tls ∅ ("joe" +:+ nl +:+ "secret" +:+ nl) 8) =
  (Normal 0,
   {| self := {| _helpRequested := false; _localPort := 0; _remotePort := 22;
                 _username := "joe"; _password := "secret"; _login := "";
                 _sshClient := "ssh" |};
      config := ∅;
      cin := {| buffer := ""; eofbit := false; failbit := false |};
      terminal := 8;
      trace := [Stdout "Remote Manager Username: "; Getline;
                Stdout "Remote Manager Password: "; SetTerminalMode 0; Getline;
                SetTerminalMode 8; Stdout nl;
                OpenForwarder 0 22 "https://device.example/" "joe" "secret" 30;
                SetRemoteTimeout 300; SetLocalTimeout 7200;
                LogDebug "Launching SSH client: ssh";
                Launch "ssh" ["-p"; "49152"; "localhost"];
                LogDebug "SSH client terminated with exit code 0"] |}).
Proof. vm_compute. reflexivity. Qed.

Example run_scp :
  launches (trace (run unix_env_without_tls
                     [("scp", ""); ("username", "joe"); ("password", "secret");
                      ("login-name", "root")]
                     ["https://device.example/"; "file.txt"; "remote:/tmp/"]
                     (initial unix_env_without_tls ∅ "" 8)).2) =
  [("scp", ["-P"; "49152"; "file.txt"; "remote:/tmp/"])].
Proof. vm_compute. reflexivity. Qed.

Example run_blank_lines :
  let r := run unix_env_without_tls [] ["https://device.example/"]
             (initial unix_env_without_tls ∅ (nl +:+ nl) 8) in
  r.1 = Normal 0 /\
  prompts "Remote Manager Username: " (trace r.2) = 1%nat /\
  prompts "Remote Manager Password: " (trace r.2) = 1%nat /\
  _username (self r.2) = "" /\ _password (self r.2) = "" /\
  failbit (cin r.2) = false.
Proof. vm_compute. repeat split. Qed.

(** ** [defineProperty]: the definition is split at its first '=' *)

Lemma prefix_empty (s : string) : String.prefix "" s = true.
Proof. destruct s; reflexivity. Qed.

Lemma index_cons (a : ascii) (s : string) :
  index 0 "=" (String a s) =
  if ascii_dec "=" a then Some 0%nat
  else match index 0 "=" s with
       | Some n => Some (S n)
       | None => None
       end.
Proof.
  cbn [index String.prefix]. destruct (ascii_dec "=" a); [|reflexivity].
  rewrite prefix_empty. reflexivity.
Qed.

Lemma index_first (name rest : string) :
  index 0 "=" name = None ->
  index 0 "=" (name +:+ String "=" rest) = Some (String.length name).
Proof.
  induction name as [|a name IH]; intros H.
  - simpl. rewrite prefix_empty. reflexivity.
  - change (String a name +:+ String "=" rest)
      with (String a (name +:+ String "=" rest)).
    rewrite index_cons in H |- *.
    destruct (ascii_dec "=" a) as [E|E]; [discriminate|].
    destruct (index 0 "=" name) eqn:Hn; [discriminate|].
    rewrite IH by reflexivity. reflexivity.
Qed.

Lemma substring_prefix (a b : string) : substring 0 (String.length a) (a +:+ b) = a.
Proof.
  induction a as [|c a IH]; simpl.
  - destruct b; reflexivity.
  - rewrite IH. reflexivity.
Qed.

Lemma substring_skip (a b : string) (k m : nat) :
  substring (String.length a + k) m (a +:+ b) = substring k m b.
Proof. induction a as [|c a IH]; simpl; auto. Qed.

Lemma substring_all (s : string) (m : nat) :
  (String.length s <= m)%nat -> substring 0 m s = s.
Proof.
  revert m; induction s as [|c s IH]; intros m H.
  - destruct m; reflexivity.
  - destruct m as [|m]; simpl in *; [lia|]. rewrite IH by lia. reflexivity.
Qed.

Lemma length_append (a b : string) :
  String.length (a +:+ b) = (String.length a + String.length b)%nat.
Proof. induction a as [|c a IH]; simpl; auto. Qed.

Lemma defineProperty_split (name value : string) (s : State) :
  index 0 "=" name = None ->
  defineProperty (name +:+ String "=" value) s =
  (Normal tt, set_config (fun c => <[name := value]> c) s).
Proof.
  intros H. unfold defineProperty. rewrite (index_first name value H).
  rewrite substring_prefix.
  replace (String.length name + 1)%nat with (String.length name + 1)%nat by reflexivity.
  change (name +:+ String "=" value) with (name +:+ (String "=" value)).
  rewrite (substring_skip name (String "=" value) 1).
  cbn [substring]. rewrite substring_all.
  - reflexivity.
  - rewrite length_append. simpl. lia.
Qed.

(** X1: a definition name=value, where the name holds no '=', sets the
    property name to value, all of what follows the first '=' (also further
    '=' signs, also nothing), and nothing else changes: a [getString] for the
    name then gives value and not its default. *)
Theorem define_then_get (name value default : string) (s : State) :
  index 0 "=" name = None ->
  let r := (defineProperty (name +:+ String "=" value) ≫=
            λ _, getString name default) s in
  r.1 = Normal value /\
  config r.2 = <[name := value]> (config s) /\
  self r.2 = self s /\ cin r.2 = cin s /\ terminal r.2 = terminal s /\
  trace r.2 = trace s.
Proof.
  intros H r. subst r. unfold mbind, M_bind.
  rewrite (defineProperty_split name value s H).
  unfold getString, get, mbind, M_bind, mret, M_ret. cbn [fst snd config set_config].
  rewrite lookup_insert_eq. repeat split.
Qed.

Lemma define_then_get_witness :
  let r := (defineProperty "ssh.executable=C:\a=b\plink.exe" ≫=
            λ _, getString "ssh.executable" "ssh") (initial unix_env ∅ "" 8) in
  r.1 = Normal "C:\a=b\plink.exe" /\
  config r.2 = <[ "ssh.executable" := "C:\a=b\plink.exe" ]> ∅ /\
  self r.2 = self (initial unix_env ∅ "" 8) /\
  cin r.2 = cin (initial unix_env ∅ "" 8) /\
  terminal r.2 = terminal (initial unix_env ∅ "" 8) /\
  trace r.2 = trace (initial unix_env ∅ "" 8).
Proof.
  apply (define_then_get "ssh.executable" "C:\a=b\plink.exe" "ssh"
           (initial unix_env ∅ "" 8)).
  reflexivity.
Defined.

(** X2: a definition that holds no '=' defines the property of that name
    with the empty value: a [getString] for it gives the empty string, not
    its default. *)
Theorem define_without_value (def default : string) (s : State) :
  index 0 "=" def = None ->
  let r := (defineProperty def ≫= λ _, getString def default) s in
  r.1 = Normal "" /\ config r.2 = <[def := ""]> (config s).
Proof.
  intros H r. subst r. unfold mbind, M_bind, defineProperty. rewrite H.
  unfold setString, modify, getString, get, mbind, M_bind, mret, M_ret.
  cbn [fst snd config set_config]. rewrite lookup_insert_eq. split; reflexivity.
Qed.

Lemma define_without_value_witness :
  let r := (defineProperty "http.proxy.enable" ≫=
            λ _, getString "http.proxy.enable" "false") (initial unix_env ∅ "" 8) in
  r.1 = Normal "" /\ config r.2 = <[ "http.proxy.enable" := "" ]> ∅.
Proof.
  apply (define_without_value "http.proxy.enable" "false"
           (initial unix_env ∅ "" 8)).
  reflexivity.
Defined.

(** X3: of two definitions the later one wins for its name and leaves the
    property of another name as the earlier one set it. *)
Theorem define_last_wins (n1 v1 n2 v2 default : string) (s : State) :
  index 0 "=" n1 = None -> index 0 "=" n2 = None ->
  let r := (defineProperty (n1 +:+ String "=" v1) ≫= λ _,
            defineProperty (n2 +:+ String "=" v2) ≫= λ _,
            getString n1 default) s in
  r.1 = Normal (if String.eqb n1 n2 then v2 else v1).
Proof.
  intros H1 H2 r. subst r. unfold mbind at 1, M_bind at 1.
  rewrite (defineProperty_split n1 v1 s H1).
  unfold mbind at 1, M_bind at 1.
  rewrite (defineProperty_split n2 v2 _ H2).
  unfold getString, get, mbind, M_bind, mret, M_ret. cbn [fst snd config set_config].
  destruct (String.eqb_spec n1 n2) as [->|Hne].
  - rewrite lookup_insert_eq. reflexivity.
  - rewrite lookup_insert_ne by congruence. rewrite lookup_insert_eq. reflexivity.
Qed.

Lemma define_last_wins_witness :
  ((defineProperty "tls.ciphers=HIGH" ≫= λ _,
    defineProperty "tls.ciphers=ALL" ≫= λ _,
    getString "tls.ciphers" "") (initial unix_env ∅ "" 8)).1 =
  Normal (if String.eqb "tls.ciphers" "tls.ciphers" then "ALL" else "HIGH").
Proof.
  apply (define_last_wins "tls.ciphers" "HIGH" "tls.ciphers" "ALL" ""
           (initial unix_env ∅ "" 8)); reflexivity.
Defined.

(** ** The options, one field of the object at a time *)

Lemma handleOption_fields (env : Env) (name value : string) (s r : State) :
  handleOption env name value s = (Normal tt, r) ->
  _helpRequested (self r) = (if String.eqb name "help" then true
                             else _helpRequested (self s)) /\
  _localPort (self r) = (if String.eqb name "local-port"
                         then port_of env (Some value) (_localPort (self s))
                         else _localPort (self s)) /\
  _remotePort (self r) = (if String.eqb name "remote-port"
                          then port_of env (Some value) (_remotePort (self s))
                          else _remotePort (self s)) /\
  _username (self r) = (if String.eqb name "username" then value
                        else _username (self s)) /\
  _password (self r) = (if String.eqb name "password" then value
                        else _password (self s)) /\
  _login (self r) = (if String.eqb name "login-name" then value
                     else _login (self s)).
Proof.
  assert (H1 : forall k, k <> name -> String.eqb name k = false)
    by (intros k Hk; apply String.eqb_neq; congruence).
  unfold port_of.
  handle_cases env name value; intros E; inversion E; subst; clear E; simpl;
    rewrite ?H1 by assumption; repeat split.
Qed.

Lemma process_fold (env : Env) {T : Type} (f : App -> T) (key : string)
    (F : option string -> T -> T) :
  (forall d, F None d = d) ->
  (forall v d d', F (Some v) d = F (Some v) d') ->
  (forall name value s r,
     handleOption env name value s = (Normal tt, r) ->
     f (self r) = if String.eqb name key then F (Some value) (f (self s))
                  else f (self s)) ->
  forall opts sp s s' last d,
    f (self s) = F last d ->
    process env sp opts s = (Normal tt, s') ->
    f (self s') = F (option_value key opts last) d.
Proof.
  intros HN HS Hcb. induction opts as [|[name value] opts IH];
    intros sp s s' last d Hf Hp.
  - simpl in Hp. inversion Hp; subst. exact Hf.
  - cbn [option_value].
    destruct (process_cons env sp name value opts s)
      as [(o & s1 & _ & _ & Eh & E)|(e & E)]; rewrite E in Hp; [|discriminate].
    apply (IH (name :: sp) s1 s' _ d); [|exact Hp].
    rewrite (Hcb _ _ _ _ Eh).
    destruct (String.eqb name key); [apply HS | exact Hf].
Qed.

Lemma processOptions_fold (env : Env) {T : Type} (f : App -> T) (key : string)
    (F : option string -> T -> T) :
  (forall d, F None d = d) ->
  (forall v d d', F (Some v) d = F (Some v) d') ->
  (forall name value s r,
     handleOption env name value s = (Normal tt, r) ->
     f (self r) = if String.eqb name key then F (Some value) (f (self s))
                  else f (self s)) ->
  forall opts s s' last d,
    f (self s) = F last d ->
    processOptions env opts s = (Normal tt, s') ->
    f (self s') = F (option_value key opts last) d.
Proof.
  intros HN HS Hcb opts s s' last d. exact (process_fold env f key F HN HS Hcb opts [] s s' last d).
Qed.

Lemma option_value_given (key value : string) (opts : list (string * string)) :
  In (key, value) opts -> forall last, given (option_value key opts last) = true.
Proof.
  assert (Hk : forall o v, given (option_value key o (Some v)) = true).
  { induction o as [|[n w] o IH]; intros v; simpl; [reflexivity|].
    destruct (String.eqb n key); apply IH. }
  induction opts as [|[n w] opts IH]; intros Hin last; [destruct Hin|].
  simpl. destruct Hin as [E|Hin].
  - inversion E; subst. rewrite String.eqb_refl. apply Hk.
  - apply IH. exact Hin.
Qed.

Lemma processOptions_outside (env : Env) (opts : list (string * string)) (s : State) :
  trace (processOptions env opts s).2 = trace s /\
  cin (processOptions env opts s).2 = cin s /\
  terminal (processOptions env opts s).2 = terminal s.
Proof.
  pose proof (processOptions_client env opts s None (_sshClient (self s)) eq_refl)
    as (A & B & C & _). auto.
Qed.

(** X4: when the help option is anywhere among the options and the options
    are handled without an exception, the run shows the help and returns 0,
    whatever the other options and the arguments are: nothing is asked, no
    tunnel is opened, no client is launched. *)
Theorem help_wins (env : Env) (opts : list (string * string)) (args : list string)
    (cfg : gmap string string) (input : string) (mode : Z) (value : string) :
  In ("help", value) opts ->
  (processOptions env opts (initial env cfg input mode)).1 = Normal tt ->
  let r := run env opts args (initial env cfg input mode) in
  r.1 = Normal EXIT_OK /\ trace r.2 = [DisplayHelp] /\
  cin r.2 = cin (initial env cfg input mode) /\ terminal r.2 = mode.
Proof.
  intros Hin Hn r. subst r. rewrite run_eq.
  pose proof (processOptions_outside env opts (initial env cfg input mode))
    as (Ht & Hc & Hm).
  destruct (processOptions env opts (initial env cfg input mode)) as [[[]|e] s'] eqn:E;
    [|discriminate].
  cbn [snd] in *.
  assert (Hh : _helpRequested (self s') = true).
  { rewrite (processOptions_fold env _helpRequested "help"
               (fun o d => if given o then true else d)
               ltac:(reflexivity) ltac:(reflexivity)
               ltac:(intros n v s0 r0 H; exact (proj1 (handleOption_fields env n v s0 r0 H)))
               opts (initial env cfg input mode) s' None false eq_refl E).
    rewrite (option_value_given "help" value opts Hin). reflexivity. }
  rewrite main_help by (left; exact Hh).
  cbn [fst snd trace add_event cin terminal set_config].
  rewrite Ht, Hc, Hm. repeat split.
Qed.

Lemma help_wins_witness :
  let r := run unix_env [("username", "joe"); ("help", ""); ("scp", "")]
             ["https://device.example/"] (initial unix_env ∅ "typed" 8) in
  r.1 = Normal EXIT_OK /\ trace r.2 = [DisplayHelp] /\
  cin r.2 = cin (initial unix_env ∅ "typed" 8) /\ terminal r.2 = 8.
Proof.
  apply (help_wins unix_env [("username", "joe"); ("help", ""); ("scp", "")]
           ["https://device.example/"] ∅ "typed" 8 "").
  - right. left. reflexivity.
  - reflexivity.
Defined.

(** ** The tunnel that [main] opens *)

Lemma prompted_fields (env : Env) (s s1 : State) :
  quiet s s1 ->
  let s2 := prompted env s s1 in
  _username (self s2) = prompted_value (_username (self s)) (cin s) /\
  _password (self s2) = prompted_value (_password (self s)) (cin_after_username s) /\
  (str_empty (_username (self s)) = false -> str_empty (_password (self s)) = false ->
   cin s2 = cin s /\ terminal s2 = terminal s /\
   trace s2 = trace s1).
Proof.
  intros (A & B & C & D & _). unfold prompted. rewrite promptLogin_spec.
  unfold prompted_value, cin_after_username, username_events, password_events, resolved.
  cbn [self set_self cin terminal trace fst snd _username _password with_sshClient
       with_username with_password].
  rewrite A, C, D. split; [|split; [|intros H H0; split; [|split]]].
  - destruct (str_empty (_username (self s))); reflexivity.
  - destruct (str_empty (_password (self s))); reflexivity.
  - rewrite H, H0. reflexivity.
  - rewrite H0. reflexivity.
  - rewrite H, H0, !app_nil_r. reflexivity.
Qed.

Lemma early_not_open (pre : list event) (l r : Z) (u us pw : string) (ct : Z) :
  early pre = true -> ~ In (OpenForwarder l r u us pw ct) pre.
Proof.
  intros H Hin. destruct (early_no_open pre _ H Hin) as [E _]. discriminate.
Qed.

Lemma outcome_opens (env : Env) (args : list string) (s s' : State) (res : result Z)
    (l r : Z) (u us pw : string) (ct : Z) :
  outcome env args s res s' ->
  In (OpenForwarder l r u us pw ct) (trace s') ->
  In (OpenForwarder l r u us pw ct) (trace s) \/
  exists t s1,
    transportSetup env s = (Normal t, s1) /\
    uri_parse env (hd "" args) = inr u /\
    l = _localPort (self s) /\ r = _remotePort (self s) /\
    us = prompted_value (_username (self s)) (cin s) /\
    pw = prompted_value (_password (self s)) (cin_after_username s) /\
    ct = t.1.1.
Proof.
  intros H Hin.
  assert (Hearly : forall x pre, trace x = trace s ++ pre -> early pre = true ->
            In (OpenForwarder l r u us pw ct) (trace x) ->
            In (OpenForwarder l r u us pw ct) (trace s)).
  { intros x pre E F Hx. rewrite E in Hx. apply in_app_or in Hx as [Hx|Hx]; [exact Hx|].
    exfalso. eapply early_not_open; eauto. }
  destruct H as
    [ Hh | e s1 Hs Ht | t s1 Hs Ht Hc | t s1 e Hs Ht Hc Hu | t s1 uri e Hs Ht Hc Hu Hf
    | t s1 uri port e Hs Ht Hc Hu Hf Hl | t s1 uri port rc Hs Ht Hc Hu Hf Hl ];
    try (pose proof (transportSetup_quiet _ _ _ _ Ht) as Hq).
  - left. apply (Hearly (add_event DisplayHelp s) [DisplayHelp]); auto.
  - left. destruct (quiet_early _ _ Hq) as (p & E & F). eapply Hearly; eauto.
  - left. destruct (quiet_early _ _ Hq) as (p & E & F).
    apply (Hearly (add_event (LogError no_client_message) (resolved s s1))
             (p ++ [LogError no_client_message])); auto.
    + simpl. rewrite E. symmetry. apply app_assoc.
    + rewrite early_app, F. reflexivity.
  - left. destruct (prompted_early env _ _ Hq) as (p & E & F). eapply Hearly; eauto.
  - left. destruct (prompted_early env _ _ Hq) as (p & E & F). eapply Hearly; eauto.
  - cbn [trace launched] in Hin. apply in_app_or in Hin as [Hin|Hin].
    + left. destruct (prompted_early env _ _ Hq) as (p & E & F). eapply Hearly; eauto.
    + right. exists t, s1.
      destruct (prompted_self env s s1 Hq) as (_ & _ & Hlp & Hrp & _).
      destruct (prompted_fields env s s1 Hq) as (Hu' & Hp' & _).
      unfold launch_events in Hin. simpl in Hin.
      destruct Hin as [E|[E|[E|[E|[E|[]]]]]]; try discriminate.
      inversion E; subst. repeat split; auto.
  - cbn [trace launched add_event] in Hin.
    apply in_app_or in Hin as [Hin|[E|[]]]; [|discriminate].
    apply in_app_or in Hin as [Hin|Hin].
    + left. destruct (prompted_early env _ _ Hq) as (p & E & F). eapply Hearly; eauto.
    + right. exists t, s1.
      destruct (prompted_self env s s1 Hq) as (_ & _ & Hlp & Hrp & _).
      destruct (prompted_fields env s s1 Hq) as (Hu' & Hp' & _).
      unfold launch_events in Hin. simpl in Hin.
      destruct Hin as [E|[E|[E|[E|[E|[]]]]]]; try discriminate.
      inversion E; subst. repeat split; auto.
Qed.

Lemma port_of_range (env : Env) (o : option string) (d : Z) :
  0 <= d < 65536 -> 0 <= port_of env o d < 65536.
Proof. intros H. destruct o; simpl; [apply UInt16_range | exact H]. Qed.

(** The object after the options: each field holds the value of the last
    option for it, or what the constructor put there. *)
Lemma processOptions_fields (env : Env) (opts : list (string * string))
    (cfg : gmap string string) (input : string) (mode : Z) (s' : State) :
  processOptions env opts (initial env cfg input mode) = (Normal tt, s') ->
  _localPort (self s') = port_of env (option_value "local-port" opts None) 0 /\
  _remotePort (self s') = port_of env (option_value "remote-port" opts None) 22 /\
  _username (self s') = default "" (option_value "username" opts None) /\
  _password (self s') = default "" (option_value "password" opts None) /\
  _login (self s') = default "" (option_value "login-name" opts None).
Proof.
  intros E. repeat split.
  - apply (processOptions_fold env _localPort "local-port" (port_of env)
             ltac:(reflexivity) ltac:(reflexivity)
             ltac:(intros n v s0 r0 H;
                   exact (proj1 (proj2 (handleOption_fields env n v s0 r0 H))))
             opts (initial env cfg input mode) s' None 0 eq_refl E).
  - apply (processOptions_fold env _remotePort "remote-port" (port_of env)
             ltac:(reflexivity) ltac:(reflexivity)
             ltac:(intros n v s0 r0 H;
                   exact (proj1 (proj2 (proj2 (handleOption_fields env n v s0 r0 H)))))
             opts (initial env cfg input mode) s' None 22 eq_refl E).
  - apply (processOptions_fold env _username "username" (fun o d => default d o)
             ltac:(reflexivity) ltac:(reflexivity)
             ltac:(intros n v s0 r0 H;
                   exact (proj1 (proj2 (proj2 (proj2 (handleOption_fields env n v s0 r0 H))))))
             opts (initial env cfg input mode) s' None "" eq_refl E).
  - apply (processOptions_fold env _password "password" (fun o d => default d o)
             ltac:(reflexivity) ltac:(reflexivity)
             ltac:(intros n v s0 r0 H;
                   exact (proj1 (proj2 (proj2 (proj2 (proj2
                            (handleOption_fields env n v s0 r0 H)))))))
             opts (initial env cfg input mode) s' None "" eq_refl E).
  - apply (processOptions_fold env _login "login-name" (fun o d => default d o)
             ltac:(reflexivity) ltac:(reflexivity)
             ltac:(intros n v s0 r0 H;
                   exact (proj2 (proj2 (proj2 (proj2 (proj2
                            (handleOption_fields env n v s0 r0 H)))))))
             opts (initial env cfg input mode) s' None "" eq_refl E).
Qed.

Lemma run_opens (env : Env) (opts : list (string * string)) (args : list string)
    (cfg : gmap string string) (input : string) (mode : Z)
    (l r : Z) (u us pw : string) (ct : Z) :
  In (OpenForwarder l r u us pw ct)
     (trace (run env opts args (initial env cfg input mode)).2) ->
  exists s' t s1,
    processOptions env opts (initial env cfg input mode) = (Normal tt, s') /\
    transportSetup env (set_config (load_default_configuration env) s') = (Normal t, s1) /\
    uri_parse env (hd "" args) = inr u /\
    l = _localPort (self s') /\ r = _remotePort (self s') /\
    us = prompted_value (_username (self s')) (cin0 input) /\
    pw = prompted_value (_password (self s'))
           (if str_empty (_username (self s'))
            then (getline (cin0 input) (_username (self s'))).1 else cin0 input) /\
    ct = t.1.1.
Proof.
  rewrite run_eq.
  pose proof (processOptions_outside env opts (initial env cfg input mode))
    as (Ht & Hc & _).
  destruct (processOptions env opts (initial env cfg input mode)) as [[[]|e] s'] eqn:E;
    cbn [snd] in *.
  2:{ rewrite Ht. intros []. }
  intros Hin.
  destruct (outcome_opens env args _ _ _ l r u us pw ct
              (main_outcome env args (set_config (load_default_configuration env) s')) Hin)
    as [Hin' | (t & s1 & H1 & H2 & H3 & H4 & H5 & H6 & H7)].
  - cbn [trace set_config] in Hin'. rewrite Ht in Hin'. destruct Hin'.
  - exists s', t, s1. unfold cin_after_username in H6.
    cbn [self set_config cin] in *. rewrite Hc in H5, H6.
    repeat split; auto.
Qed.

Lemma handleOption_port (env : Env) (name value : string) (s r : State) :
  name = "local-port" \/ name = "remote-port" ->
  handleOption env name value s = (Normal tt, r) ->
  exists n z, valid_port env value n /\ parse_unsigned env value = Some z.
Proof.
  intros Hn. unfold valid_port.
  handle_cases env name value; intros E; inversion E; subst;
    try (destruct Hn; discriminate); try (destruct Hn; congruence).
  all: exists parsed, z; apply orb_false_iff in Hrange as [H1 H2];
    apply Z.ltb_ge in H1, H2; repeat split; auto; lia.
Qed.

Lemma process_ports (env : Env) (opts : list (string * string)) :
  forall sp s s',
    process env sp opts s = (Normal tt, s') ->
    forall name value,
      name = "local-port" \/ name = "remote-port" ->
      In (name, value) opts ->
      exists n z, valid_port env value n /\ parse_unsigned env value = Some z.
Proof.
  induction opts as [|[n0 v0] opts IH]; intros sp s s' Hp name value Hn Hin;
    [destruct Hin|].
  destruct (process_cons env sp n0 v0 opts s)
    as [(o & s1 & _ & _ & Eh & E)|(e & E)]; rewrite E in Hp; [|discriminate].
  destruct Hin as [Heq|Hin].
  - inversion Heq; subst. exact (handleOption_port env name value s s1 Hn Eh).
  - exact (IH _ _ _ Hp name value Hn Hin).
Qed.

Lemma option_value_In (key : string) (opts : list (string * string)) :
  forall last v, option_value key opts last = Some v ->
                 last = Some v \/ In (key, v) opts.
Proof.
  induction opts as [|[n w] opts IH]; intros last v H; [left; exact H|].
  cbn [option_value] in H. destruct (IH _ _ H) as [E|Hin].
  - destruct (String.eqb_spec n key) as [->|Hne].
    + inversion E; subst. right. left. reflexivity.
    + left. exact E.
  - right. right. exact Hin.
Qed.

Lemma getOption_once (env : Env) (name : string) (s : State) (o : Option) :
  getOption env name s = (Normal o, s) -> once_only env name = negb (repeatable o).
Proof.
  unfold getOption, once_only.
  destruct (List.find _ _); intros E; inversion E; reflexivity.
Qed.

(** An option that may be given once only is on a command line that is
    handled at most once, and not at all if it was seen before. *)
Lemma process_once (env : Env) (name : string) (opts : list (string * string)) :
  once_only env name = true ->
  forall sp s s',
    process env sp opts s = (Normal tt, s') ->
    (times name opts <= 1)%nat /\
    (existsb (String.eqb name) sp = true -> times name opts = 0%nat).
Proof.
  intros Ho. induction opts as [|[n0 v0] opts IH]; intros sp s s' Hp.
  - split; [unfold times; simpl; lia | reflexivity].
  - destruct (process_cons env sp n0 v0 opts s)
      as [(o & s1 & Eg & Ed & Eh & E)|(e & E)]; rewrite E in Hp; [|discriminate].
    destruct (IH _ _ _ Hp) as (H1 & H2).
    unfold times in *. cbn [List.filter fst existsb] in *.
    destruct (String.eqb_spec name n0) as [->|Hne].
    + rewrite (getOption_once env n0 s o Eg) in Ho. rewrite Ho in Ed.
      cbn [andb orb] in *. rewrite Ed. cbn [length].
      rewrite (H2 eq_refl). split; [lia | discriminate].
    + cbn [orb] in *. split; [exact H1 | exact H2].
Qed.

(** X5: the tunnel of a run is opened for the URI made of the first
    argument, with the local port of the --local-port option, or 0 for a
    port of the system's choice when there is none, and the remote port of
    the --remote-port option, or 22. Each of the two options is on the
    command line once at most, its value has passed the validator as an
    integer from 1 to 65535, and the port is that value as the handler read
    it, as a 16-bit number. *)
Theorem tunnel_ports (env : Env) (opts : list (string * string)) (args : list string)
    (cfg : gmap string string) (input : string) (mode : Z)
    (l r : Z) (u us pw : string) (ct : Z) :
  In (OpenForwarder l r u us pw ct)
     (trace (run env opts args (initial env cfg input mode)).2) ->
  uri_parse env (hd "" args) = inr u /\
  l = port_of env (option_value "local-port" opts None) 0 /\
  r = port_of env (option_value "remote-port" opts None) 22 /\
  0 <= l < 65536 /\ 0 <= r < 65536 /\
  (times "local-port" opts <= 1)%nat /\ (times "remote-port" opts <= 1)%nat /\
  (forall v, option_value "local-port" opts None = Some v ->
     exists n z, valid_port env v n /\ parse_unsigned env v = Some z /\
                 l = UInt16 z /\ (z = n -> l = n)) /\
  (forall v, option_value "remote-port" opts None = Some v ->
     exists n z, valid_port env v n /\ parse_unsigned env v = Some z /\
                 r = UInt16 z /\ (z = n -> r = n)).
Proof.
  intros Hin.
  destruct (run_opens _ _ _ _ _ _ _ _ _ _ _ _ Hin)
    as (s' & t & s1 & E & _ & Hu & Hl & Hr & _).
  destruct (processOptions_fields env opts cfg input mode s' E) as (Fl & Fr & _).
  subst l r. rewrite Fl, Fr.
  assert (Hport : forall key d v,
            key = "local-port" \/ key = "remote-port" ->
            option_value key opts None = Some v ->
            exists n z, valid_port env v n /\ parse_unsigned env v = Some z /\
                        port_of env (option_value key opts None) d = UInt16 z /\
                        (z = n -> port_of env (option_value key opts None) d = n)).
  { intros key d v Hk Hv.
    destruct (option_value_In key opts None v Hv) as [Hnone|Hinv]; [discriminate|].
    destruct (process_ports env opts [] _ _ E key v Hk Hinv) as (n & z & Hvalid & Hz).
    exists n, z. rewrite Hv. unfold port_of. rewrite Hz. cbn [default].
    repeat split; auto; try apply Hvalid.
    intros ->. unfold UInt16. destruct Hvalid as (_ & Hrange).
    apply Z.mod_small. lia. }
  repeat split; try exact Hu; try (apply port_of_range; lia).
  - exact (proj1 (process_once env "local-port" opts eq_refl [] _ _ E)).
  - exact (proj1 (process_once env "remote-port" opts eq_refl [] _ _ E)).
  - intros v Hv. apply Hport; auto.
  - intros v Hv. apply Hport; auto.
Qed.

Lemma tunnel_ports_witness :
  uri_parse parsing_env (hd "" ["https://device.example/"]) =
    inr "https://device.example/" /\
  2222 = port_of parsing_env
           (option_value "local-port" [("username", "joe"); ("local-port", "2222")] None) 0 /\
  22 = port_of parsing_env
         (option_value "remote-port" [("username", "joe"); ("local-port", "2222")] None) 22 /\
  0 <= 2222 < 65536 /\ 0 <= 22 < 65536 /\
  (times "local-port" [("username", "joe"); ("local-port", "2222")] <= 1)%nat /\
  (times "remote-port" [("username", "joe"); ("local-port", "2222")] <= 1)%nat /\
  (forall v,
     option_value "local-port" [("username", "joe"); ("local-port", "2222")] None = Some v ->
     exists n z, valid_port parsing_env v n /\ parse_unsigned parsing_env v = Some z /\
                 2222 = UInt16 z /\ (z = n -> 2222 = n)) /\
  (forall v,
     option_value "remote-port" [("username", "joe"); ("local-port", "2222")] None = Some v ->
     exists n z, valid_port parsing_env v n /\ parse_unsigned parsing_env v = Some z /\
                 22 = UInt16 z /\ (z = n -> 22 = n)).
Proof.
  apply (tunnel_ports parsing_env [("username", "joe"); ("local-port", "2222")]
           ["https://device.example/"] ∅ ("secret" +:+ nl) 8
           2222 22 "https://device.example/" "joe" "secret" 30).
  vm_compute. do 6 right. left. reflexivity.
Defined.

(** X6: the tunnel of a run is opened with the username of the last
    --username option when that is not empty, and with the line read at the
    prompt otherwise; the same for the password, whose line is read after
    the one of the username if that was asked for. *)
Theorem tunnel_credentials (env : Env) (opts : list (string * string))
    (args : list string) (cfg : gmap string string) (input : string) (mode : Z)
    (l r : Z) (u us pw : string) (ct : Z) :
  In (OpenForwarder l r u us pw ct)
     (trace (run env opts args (initial env cfg input mode)).2) ->
  let u0 := default "" (option_value "username" opts None) in
  let p0 := default "" (option_value "password" opts None) in
  us = (if str_empty u0 then (getline (cin0 input) "").2 else u0) /\
  pw = (if str_empty p0
        then (getline (if str_empty u0 then (getline (cin0 input) "").1
                       else cin0 input) "").2
        else p0).
Proof.
  intros Hin u0 p0.
  destruct (run_opens _ _ _ _ _ _ _ _ _ _ _ _ Hin)
    as (s' & t & s1 & E & _ & _ & _ & _ & Hus & Hpw & _).
  destruct (processOptions_fields env opts cfg input mode s' E) as (_ & _ & Fu & Fp & _).
  rewrite Fu in Hus, Hpw. rewrite Fp in Hpw. fold u0 in Hus, Hpw. fold p0 in Hpw.
  unfold prompted_value in *. subst us pw. split.
  - destruct u0; reflexivity.
  - destruct p0; [|reflexivity]. destruct u0; reflexivity.
Qed.

Lemma tunnel_credentials_witness :
  "joe" = (if str_empty (default "" (option_value "username" [("username", "joe")] None))
           then (getline (cin0 ("secret" +:+ nl)) "").2
           else default "" (option_value "username" [("username", "joe")] None)) /\
  "secret" =
  (if str_empty (default "" (option_value "password" [("username", "joe")] None))
   then (getline
           (if str_empty (default "" (option_value "username" [("username", "joe")] None))
            then (getline (cin0 ("secret" +:+ nl)) "").1
            else cin0 ("secret" +:+ nl)) "").2
   else default "" (option_value "password" [("username", "joe")] None)).
Proof.
  apply (tunnel_credentials unix_env_without_tls [("username", "joe")]
           ["https://device.example/"] ∅ ("secret" +:+ nl) 8
           0 22 "https://device.example/" "joe" "secret" 30).
  vm_compute. do 5 right. left. reflexivity.
Defined.

(** ** Runs without a dialogue *)

Lemma silent_app (a b : list event) : silent (a ++ b) = silent a && silent b.
Proof. apply forallb_app. Qed.

Lemma setup_silent (t : list event) : forallb setup_event t = true -> silent t = true.
Proof.
  unfold silent. induction t as [|e t IH]; [reflexivity|].
  simpl. destruct e; simpl; auto; discriminate.
Qed.

Lemma quiet_silent (s s1 : State) :
  quiet s s1 -> exists t, trace s1 = trace s ++ t /\ silent t = true.
Proof.
  intros (_ & _ & _ & _ & t & E & F). exists t. split; [exact E | now apply setup_silent].
Qed.

Lemma outcome_silent (env : Env) (args : list string) (s s' : State) (res : result Z) :
  outcome env args s res s' ->
  str_empty (_username (self s)) = false ->
  str_empty (_password (self s)) = false ->
  cin s' = cin s /\ terminal s' = terminal s /\
  exists new, trace s' = trace s ++ new /\ silent new = true.
Proof.
  intros H Hu Hp.
  assert (Hpr : forall s1, quiet s s1 ->
            cin (prompted env s s1) = cin s /\ terminal (prompted env s s1) = terminal s /\
            exists new, trace (prompted env s s1) = trace s ++ new /\ silent new = true).
  { intros s1 Hq. destruct (prompted_fields env s s1 Hq) as (_ & _ & Hf).
    destruct (Hf Hu Hp) as (A & B & C). rewrite A, B, C.
    repeat split. apply quiet_silent. exact Hq. }
  destruct H as
    [ Hh | e s1 Hs Ht | t s1 Hs Ht Hc | t s1 e Hs Ht Hc Hu' | t s1 uri e Hs Ht Hc Hu' Hf
    | t s1 uri port e Hs Ht Hc Hu' Hf Hl | t s1 uri port rc Hs Ht Hc Hu' Hf Hl ];
    try (pose proof (transportSetup_quiet _ _ _ _ Ht) as Hq);
    try (destruct (Hpr s1 Hq) as (A & B & new & E & F)).
  - repeat split. exists [DisplayHelp]. split; reflexivity.
  - destruct Hq as (_ & _ & A0 & B0 & t & E0 & F0). repeat split; auto.
    exists t. split; [exact E0 | now apply setup_silent].
  - pose proof Hq as (_ & _ & A' & B' & _).
    destruct (quiet_silent _ _ Hq) as (t0 & E0 & F0).
    repeat split; auto. exists (t0 ++ [LogError no_client_message]). split.
    + simpl. rewrite E0. symmetry. apply app_assoc.
    + rewrite silent_app, F0. reflexivity.
  - repeat split; auto. exists new. auto.
  - repeat split; auto. exists new. auto.
  - repeat split; auto.
    exists (new ++ launch_events s (prompted env s s1) args t uri port). split.
    + cbn [trace launched]. rewrite E. symmetry. apply app_assoc.
    + rewrite silent_app, F. reflexivity.
  - repeat split; auto.
    exists (new ++ launch_events s (prompted env s s1) args t uri port ++
            [LogDebug ("SSH client terminated with exit code " +:+ format_int rc)]).
    split.
    + cbn [trace launched add_event]. rewrite E, <- !app_assoc. reflexivity.
    + rewrite !silent_app, F. reflexivity.
Qed.

(** X7: a run that is given a username and a password that are not empty
    on the command line has no dialogue, however it ends: nothing is written
    to the standard output, nothing is read from the standard input, which
    is left as it was, and the mode of the terminal is not touched. *)
Theorem no_dialogue_with_credentials (env : Env) (opts : list (string * string))
    (args : list string) (cfg : gmap string string) (input : string) (mode : Z) :
  str_empty (default "" (option_value "username" opts None)) = false ->
  str_empty (default "" (option_value "password" opts None)) = false ->
  let r := run env opts args (initial env cfg input mode) in
  cin r.2 = cin0 input /\ terminal r.2 = mode /\ silent (trace r.2) = true.
Proof.
  intros Hu Hp r. subst r. rewrite run_eq.
  pose proof (processOptions_outside env opts (initial env cfg input mode))
    as (Ht & Hc & Hm).
  destruct (processOptions env opts (initial env cfg input mode)) as [[[]|e] s'] eqn:E;
    cbn [snd] in *.
  2:{ rewrite Ht, Hc, Hm. repeat split. }
  destruct (processOptions_fields env opts cfg input mode s' E) as (_ & _ & Fu & Fp & _).
  destruct (outcome_silent env args _ _ _
              (main_outcome env args (set_config (load_default_configuration env) s')))
    as (A & B & new & En & Fn).
  - cbn [self set_config]. rewrite Fu. exact Hu.
  - cbn [self set_config]. rewrite Fp. exact Hp.
  - rewrite A, B, En. cbn [cin terminal trace set_config]. rewrite Ht, Hc, Hm.
    repeat split. exact Fn.
Qed.

Lemma no_dialogue_with_credentials_witness :
  let r := run unix_env [("username", "joe"); ("password", "secret")]
             ["https://device.example/"] (initial unix_env ∅ "typed ahead" 8) in
  cin r.2 = cin0 "typed ahead" /\ terminal r.2 = 8 /\ silent (trace r.2) = true.
Proof.
  apply (no_dialogue_with_credentials unix_env [("username", "joe"); ("password", "secret")]
           ["https://device.example/"] ∅ "typed ahead" 8); reflexivity.
Defined.

(** ** The status that [main] returns *)

Lemma outcome_returned (env : Env) (args : list string) (s s' : State)
    (res : result Z) (rc : Z) :
  outcome env args s res s' ->
  res = Normal rc ->
  (rc = EXIT_OK /\ (_helpRequested (self s) = true \/ args = [])) \/
  (rc = EXIT_CONFIG /\ session s args /\ str_empty (client_at s) = true) \/
  (session s args /\ str_empty (client_at s) = false /\
   exists port,
     launch_wait env (client_at s) (client_args s args port) = inr rc /\
     launches (trace s') = launches (trace s) ++ [(client_at s, client_args s args port)]).
Proof.
  intros H Hr. destruct H as
    [ Hh | e s1 Hs Ht | t s1 Hs Ht Hc | t s1 e Hs Ht Hc Hu | t s1 uri e Hs Ht Hc Hu Hf
    | t s1 uri port e Hs Ht Hc Hu Hf Hl | t s1 uri port rc' Hs Ht Hc Hu Hf Hl ];
    try discriminate; inversion Hr; subst.
  - left. auto.
  - right. left. auto.
  - right. right. repeat split; try apply Hs; auto.
    exists port. split; [exact Hl|].
    destruct (prompted_early env s s1 (transportSetup_quiet _ _ _ _ Ht)) as (p & Ep & Fp).
    cbn [trace add_event launched]. rewrite Ep, !launches_app.
    rewrite (no_launch_launches p) by now apply early_no_launch.
    rewrite !app_nil_r. reflexivity.
Qed.

(** X8: [main] returns in three ways only: 0 after the help; the
    configuration error status when no client is resolved; and otherwise
    the exit code of the client it launched, as [wait] gave it, unchanged,
    and then that client is the one child of the run. *)
Theorem returned_status (env : Env) (args : list string) (s : State) (rc : Z) :
  (main env args s).1 = Normal rc ->
  (rc = EXIT_OK /\ (_helpRequested (self s) = true \/ args = [])) \/
  (rc = EXIT_CONFIG /\ session s args /\ str_empty (client_at s) = true) \/
  (session s args /\ str_empty (client_at s) = false /\
   exists port,
     launch_wait env (client_at s) (client_args s args port) = inr rc /\
     launches (trace (main env args s).2) =
     launches (trace s) ++ [(client_at s, client_args s args port)]).
Proof.
  intros H. exact (outcome_returned env args s _ _ rc (main_outcome env args s) H).
Qed.

Lemma returned_status_witness :
  (0 = EXIT_OK /\
   (_helpRequested (self (initial unix_env_without_tls ∅ "" 8)) = true \/
    ["https://device.example/"] = [])) \/
  (0 = EXIT_CONFIG /\ session (initial unix_env_without_tls ∅ "" 8) ["https://device.example/"] /\
   str_empty (client_at (initial unix_env_without_tls ∅ "" 8)) = true) \/
  (session (initial unix_env_without_tls ∅ "" 8) ["https://device.example/"] /\
   str_empty (client_at (initial unix_env_without_tls ∅ "" 8)) = false /\
   exists port,
     launch_wait unix_env_without_tls (client_at (initial unix_env_without_tls ∅ "" 8))
       (client_args (initial unix_env_without_tls ∅ "" 8) ["https://device.example/"] port) =
     inr 0 /\
     launches (trace (main unix_env_without_tls ["https://device.example/"]
                        (initial unix_env_without_tls ∅ "" 8)).2) =
     launches (trace (initial unix_env_without_tls ∅ "" 8)) ++
     [(client_at (initial unix_env_without_tls ∅ "" 8),
       client_args (initial unix_env_without_tls ∅ "" 8) ["https://device.example/"] port)]).
Proof.
  apply (returned_status unix_env_without_tls ["https://device.example/"]
           (initial unix_env_without_tls ∅ "" 8) 0).
  reflexivity.
Defined.

(** ** What is typed at the prompts *)

Lemma read_line_terminated (u rest : string) :
  one_line u = true -> read_line (u +:+ String "010" rest) = (u, Some rest).
Proof.
  induction u as [|c u IH]; intros H; [reflexivity|].
  cbn [one_line] in H. apply andb_true_iff in H as [Hc Hu].
  change (String c u +:+ String "010" rest) with (String c (u +:+ String "010" rest)).
  cbn [read_line].
  destruct (Ascii.eqb c "010"); [discriminate|].
  rewrite (IH Hu). reflexivity.
Qed.

Lemma read_line_unterminated (u : string) :
  one_line u = true -> read_line u = (u, None).
Proof.
  induction u as [|c u IH]; intros H; [reflexivity|].
  cbn [one_line] in H. apply andb_true_iff in H as [Hc Hu].
  cbn [read_line]. destruct (Ascii.eqb c "010"); [discriminate|].
  rewrite (IH Hu). reflexivity.
Qed.

Lemma getline_terminated (u rest str : string) :
  one_line u = true ->
  getline (cin0 (u +:+ String "010" rest)) str = (cin0 rest, u).
Proof.
  intros H. unfold getline, cin0. simpl.
  rewrite (read_line_terminated u rest H). reflexivity.
Qed.

(** X9: when both fields are empty and the input holds two lines, the
    first line, without its newline, becomes the username and the second
    the password; what follows the second newline is left in the input for
    the client. *)
Theorem typed_credentials (env : Env) (s : State) (u p rest : string) :
  str_empty (_username (self s)) = true ->
  str_empty (_password (self s)) = true ->
  one_line u = true -> one_line p = true ->
  cin s = cin0 (u +:+ String "010" (p +:+ String "010" rest)) ->
  let s' := (promptLogin env s).2 in
  _username (self s') = u /\ _password (self s') = p /\ cin s' = cin0 rest.
Proof.
  intros Hu Hp Lu Lp Hc s'. subst s'. rewrite promptLogin_spec.
  unfold cin_after_username.
  cbn [snd self cin _username _password with_username with_password].
  rewrite Hu, Hp, Hc, (getline_terminated u _ _ Lu).
  cbn [fst snd]. rewrite (getline_terminated p _ _ Lp). repeat split.
Qed.

Lemma typed_credentials_witness :
  let s' := (promptLogin unix_env
               (initial unix_env ∅ ("joe" +:+ String "010" ("secret" +:+ String "010" "ls")) 8)).2 in
  _username (self s') = "joe" /\ _password (self s') = "secret" /\ cin s' = cin0 "ls".
Proof.
  apply (typed_credentials unix_env
           (initial unix_env ∅ ("joe" +:+ String "010" ("secret" +:+ String "010" "ls")) 8)
           "joe" "secret" "ls"); reflexivity.
Defined.

(** X10: when both fields are empty and the input ends without a newline,
    what is left of the input becomes the username, the read for the
    password fails and leaves the password empty, the stream is left at its
    end and failed, and [promptLogin] returns all the same, with the echo
    switched on. *)
Theorem input_ends_at_username (env : Env) (s : State) (u : string) :
  str_empty (_username (self s)) = true ->
  str_empty (_password (self s)) = true ->
  one_line u = true ->
  cin s = cin0 u ->
  let r := promptLogin env s in
  r.1 = Normal tt /\
  _username (self r.2) = u /\ _password (self r.2) = "" /\
  cin r.2 = {| buffer := ""; eofbit := true; failbit := true |} /\
  echo_enabled env (terminal r.2).
Proof.
  intros Hu Hp Lu Hc r. subst r. rewrite promptLogin_spec.
  unfold cin_after_username.
  cbn [fst snd self cin terminal _username _password with_username with_password].
  rewrite Hu, Hp, Hc.
  assert (E : getline (cin0 u) (_username (self s)) =
              ({| buffer := ""; eofbit := true; failbit := str_empty u |}, u)).
  { unfold getline, cin0. simpl.
    rewrite (read_line_unterminated u Lu). reflexivity. }
  rewrite E. cbn [fst snd]. unfold getline. simpl.
  repeat split.
  - destruct (_password (self s)); [reflexivity | discriminate].
  - apply echo_on.
Qed.

Lemma input_ends_at_username_witness :
  let r := promptLogin unix_env (initial unix_env ∅ "joe" 8) in
  r.1 = Normal tt /\
  _username (self r.2) = "joe" /\ _password (self r.2) = "" /\
  cin r.2 = {| buffer := ""; eofbit := true; failbit := true |} /\
  echo_enabled unix_env (terminal r.2).
Proof.
  apply (input_ends_at_username unix_env (initial unix_env ∅ "joe" 8) "joe"); reflexivity.
Defined.

(** ** The transport set-up, read off the configuration *)

Lemma bind_getInt (env : Env) {B} (key : string) (d : Z) (f : Z -> M B) (s : State) :
  (getInt env key d ≫= f) s =
  match config_int env (config s) key d with
  | Some z => f z s
  | None => (Thrown SyntaxException, s)
  end.
Proof.
  unfold getInt, config_int, get, mbind, M_bind, mret, M_ret, throw.
  destruct (config s !! key) as [v|]; [|reflexivity].
  destruct (parse_int env v); reflexivity.
Qed.

Lemma bind_getBool (env : Env) {B} (key : string) (d : bool) (f : bool -> M B) (s : State) :
  (getBool env key d ≫= f) s =
  match config_bool env (config s) key d with
  | Some z => f z s
  | None => (Thrown SyntaxException, s)
  end.
Proof.
  unfold getBool, config_bool, get, mbind, M_bind, mret, M_ret, throw.
  destruct (config s !! key) as [v|]; [|reflexivity].
  destruct (parse_bool env v); reflexivity.
Qed.

Lemma bind_getString {B} (key d : string) (f : string -> M B) (s : State) :
  (getString key d ≫= f) s = f (config_string (config s) key d) s.
Proof.
  unfold getString, config_string, get, mbind, M_bind, mret, M_ret.
  destruct (config s !! key); reflexivity.
Qed.

Lemma bind_emit {B} (e : event) (f : unit -> M B) (s : State) :
  (emit e ≫= f) s = f tt (add_event e s).
Proof. reflexivity. Qed.

Lemma bind_ret {A B} (a : A) (f : A -> M B) (s : State) : (mret a ≫= f) s = f a s.
Proof. reflexivity. Qed.

Lemma bind_assoc {A B C} (m : M A) (f : A -> M B) (g : B -> M C) (s : State) :
  ((m ≫= f) ≫= g) s = (m ≫= (fun a => f a ≫= g)) s.
Proof.
  unfold mbind, M_bind. destruct (m s) as [[a|e] s1]; reflexivity.
Qed.

Ltac step_M :=
  cbv beta; rewrite ?bind_assoc; cbv beta;
  first [ rewrite bind_getInt | rewrite bind_getBool | rewrite bind_getString
        | rewrite bind_emit | rewrite bind_ret ];
  cbv beta.

Lemma add_events_nil (s : State) : add_events [] s = s.
Proof. destruct s. unfold add_events. simpl. rewrite app_nil_r. reflexivity. Qed.

Lemma transportSetup_setup_of (env : Env) (s : State) :
  transportSetup env s =
  ((setup_of env (config s)).1, add_events (setup_of env (config s)).2 s).
Proof.
  unfold transportSetup, setup_of.
  rewrite bind_getInt.
  destruct (config_int env (config s) "webtunnel.connectTimeout" 30) as [ct|];
    [|rewrite add_events_nil; reflexivity].
  rewrite bind_getInt.
  destruct (config_int env (config s) "webtunnel.remoteTimeout" 300) as [rt|];
    [|rewrite add_events_nil; reflexivity].
  rewrite bind_getInt.
  destruct (config_int env (config s) "webtunnel.localTimeout" 7200) as [lt|];
    [|rewrite add_events_nil; reflexivity].
  assert (Hproxy : forall s0 ev,
    config s0 = config s -> s0 = add_events ev s ->
    ((proxy ← getBool env "http.proxy.enable" false;
      (if (proxy : bool)
       then
        host ← getString "http.proxy.host" "";
        port ← getInt env "http.proxy.port" 80;
        username ← getString "http.proxy.username" "";
        password ← getString "http.proxy.password" "";
        emit (SetGlobalProxyConfig host (UInt16 port) username password)
       else mret ());;
      mret (ct, rt, lt)) : M (Z * Z * Z)) s0 =
    match proxy_setup env (config s) with
    | (Some e, ev') => (Thrown e, add_events (ev ++ ev') s)
    | (None, ev') => (Normal (ct, rt, lt), add_events (ev ++ ev') s)
    end).
  { intros s0 ev Hc Hs. unfold proxy_setup. rewrite bind_getBool, Hc.
    destruct (config_bool env (config s) "http.proxy.enable" false) as [[|]|].
    - step_M. step_M. rewrite Hc.
      destruct (config_int env (config s) "http.proxy.port" 80) as [p|].
      + step_M. step_M. step_M. rewrite Hc. subst s0.
        unfold mret, M_ret, add_event, add_events. simpl.
        rewrite <- app_assoc. reflexivity.
      + rewrite app_nil_r. subst s0. reflexivity.
    - rewrite bind_ret. rewrite app_nil_r. subst s0. reflexivity.
    - rewrite app_nil_r. subst s0. reflexivity. }
  unfold mbind at 1, M_bind at 1.
  destruct (tls_enabled env).
  - unfold tls_setup. rewrite bind_getBool.
    destruct (config_bool env (config s) "tls.acceptUnknownCertificate" true) as [a|];
      [|rewrite add_events_nil; reflexivity].
    rewrite bind_getString, bind_getBool.
    destruct (config_bool env (config s) "tls.extendedCertificateVerification" false)
      as [e|]; [|rewrite add_events_nil; reflexivity].
    rewrite bind_getString, bind_emit.
    cbn [config add_event].
    destruct (initialize_client env a _ e _) as [ex|] eqn:Hi; unfold rethrow, throw.
    + reflexivity.
    + unfold mret at 1, M_ret at 1. cbv beta iota.
      rewrite (Hproxy _ [InitializeClient a
                 (config_string (config s) "tls.ciphers" "ALL:!ADH:!LOW:!EXP:!MD5:@STRENGTH")
                 e (config_string (config s) "tls.caLocation" "")]);
        [|reflexivity | reflexivity].
      destruct (proxy_setup env (config s)) as [[ex|] ev']; reflexivity.
  - unfold mret at 1, M_ret at 1. cbv beta iota.
    rewrite (Hproxy s []); [|reflexivity | symmetry; apply add_events_nil].
    destruct (proxy_setup env (config s)) as [[ex|] ev']; reflexivity.
Qed.

Lemma main_setup_thrown (env : Env) (args : list string) (s s1 : State) (e : exn) :
  session s args ->
  transportSetup env s = (Thrown e, s1) ->
  main env args s = (Thrown e, s1).
Proof.
  intros [Hh Ha] Ht. unfold main. run_M. rewrite Hh.
  destruct args as [|a rest]; [congruence|]. simpl. rewrite Ht. reflexivity.
Qed.

(** X11: a timeout of the configuration (connect, remote or local) whose
    value is not an integer makes [main] throw the syntax exception of the
    configuration at once: the object, the input, the terminal and the trace
    are as they were, so nothing was set up, asked, opened or launched. *)
Theorem bad_timeout (env : Env) (args : list string) (s : State) (key v : string) :
  session s args ->
  In key ["webtunnel.connectTimeout"; "webtunnel.remoteTimeout";
          "webtunnel.localTimeout"] ->
  config s !! key = Some v ->
  parse_int env v = None ->
  main env args s = (Thrown SyntaxException, s).
Proof.
  intros Hs Hk Hv Hp. apply main_setup_thrown; [exact Hs|].
  rewrite transportSetup_setup_of.
  assert (E : setup_of env (config s) = (Thrown SyntaxException, [])).
  { unfold setup_of.
    assert (Hn : forall d, config_int env (config s) key d = None)
      by (intros d; unfold config_int; rewrite Hv; exact Hp).
    destruct Hk as [<-|[<-|[<-|[]]]].
    - rewrite Hn. reflexivity.
    - rewrite Hn. destruct (config_int env (config s) "webtunnel.connectTimeout" 30);
        reflexivity.
    - rewrite Hn. destruct (config_int env (config s) "webtunnel.connectTimeout" 30);
        [|reflexivity].
      destruct (config_int env (config s) "webtunnel.remoteTimeout" 300); reflexivity. }
  rewrite E. cbn [fst snd]. rewrite add_events_nil. reflexivity.
Qed.

Lemma bad_timeout_witness :
  main unix_env ["https://device.example/"]
    (initial unix_env {[ "webtunnel.remoteTimeout" := "soon" ]} "" 8) =
  (Thrown SyntaxException,
   initial unix_env {[ "webtunnel.remoteTimeout" := "soon" ]} "" 8).
Proof.
  apply (bad_timeout unix_env ["https://device.example/"]
           (initial unix_env {[ "webtunnel.remoteTimeout" := "soon" ]} "" 8)
           "webtunnel.remoteTimeout" "soon").
  - split; [reflexivity | discriminate].
  - right. left. reflexivity.
  - vm_compute. reflexivity.
  - reflexivity.
Defined.



(** X13: the set-up registers a proxy only when http.proxy.enable is true
    in the configuration, and then with the host, the username and the
    password of the configuration, empty when missing, and the port of the
    configuration, 80 when missing, cut to 16 bits. *)
Theorem proxy_from_configuration (env : Env) (s : State) (h u pw : string) (p : Z) :
  In (SetGlobalProxyConfig h p u pw) (trace (transportSetup env s).2) ->
  In (SetGlobalProxyConfig h p u pw) (trace s) \/
  (config_bool env (config s) "http.proxy.enable" false = Some true /\
   h = config_string (config s) "http.proxy.host" "" /\
   (exists z, config_int env (config s) "http.proxy.port" 80 = Some z /\ p = UInt16 z) /\
   0 <= p < 65536 /\
   u = config_string (config s) "http.proxy.username" "" /\
   pw = config_string (config s) "http.proxy.password" "").
Proof.
  rewrite transportSetup_setup_of. cbn [snd trace add_events].
  intros Hin. apply in_app_or in Hin as [Hin|Hin]; [now left|]. right.
  assert (Hproxy : forall ev e0, proxy_setup env (config s) = (e0, ev) ->
            In (SetGlobalProxyConfig h p u pw) ev ->
            config_bool env (config s) "http.proxy.enable" false = Some true /\
            h = config_string (config s) "http.proxy.host" "" /\
            (exists z, config_int env (config s) "http.proxy.port" 80 = Some z /\
                       p = UInt16 z) /\
            0 <= p < 65536 /\
            u = config_string (config s) "http.proxy.username" "" /\
            pw = config_string (config s) "http.proxy.password" "").
  { unfold proxy_setup. intros ev e0 E Hev.
    destruct (config_bool env (config s) "http.proxy.enable" false) as [[|]|];
      try (inversion E; subst; destruct Hev; fail).
    destruct (config_int env (config s) "http.proxy.port" 80) as [z|];
      inversion E; subst; [|destruct Hev].
    destruct Hev as [Hev|[]]. inversion Hev; subst.
    repeat split; eauto; apply UInt16_range. }
  unfold setup_of in Hin.
  destruct (config_int env (config s) "webtunnel.connectTimeout" 30); [|destruct Hin].
  destruct (config_int env (config s) "webtunnel.remoteTimeout" 300); [|destruct Hin].
  destruct (config_int env (config s) "webtunnel.localTimeout" 7200); [|destruct Hin].
  assert (Htls : forall e0 ev, tls_setup env (config s) = (e0, ev) ->
            ~ In (SetGlobalProxyConfig h p u pw) ev).
  { unfold tls_setup. intros e0 ev E Hev.
    destruct (config_bool env (config s) "tls.acceptUnknownCertificate" true);
      [|inversion E; subst; destruct Hev].
    destruct (config_bool env (config s) "tls.extendedCertificateVerification" false);
      inversion E; subst; [|destruct Hev].
    destruct Hev as [Hev|[]]. discriminate. }
  destruct (tls_enabled env).
  - destruct (tls_setup env (config s)) as [[e0|] ev].
    + exfalso. exact (Htls _ _ eq_refl Hin).
    + destruct (proxy_setup env (config s)) as [[e1|] ev']; cbn [snd] in Hin;
        apply in_app_or in Hin as [Hin|Hin];
        try (exfalso; exact (Htls _ _ eq_refl Hin)); exact (Hproxy _ _ eq_refl Hin).
  - destruct (proxy_setup env (config s)) as [[e1|] ev']; cbn [snd app] in Hin;
      exact (Hproxy _ _ eq_refl Hin).
Qed.

Lemma proxy_from_configuration_witness :
  In (SetGlobalProxyConfig "proxy.example" 80 "" "")
     (trace (initial parsing_env
               {[ "http.proxy.enable" := "true"; "http.proxy.host" := "proxy.example";
                  "http.proxy.port" := "65616" ]} "" 8)) \/
  (config_bool parsing_env
     (config (initial parsing_env
                {[ "http.proxy.enable" := "true"; "http.proxy.host" := "proxy.example";
                   "http.proxy.port" := "65616" ]} "" 8))
     "http.proxy.enable" false = Some true /\
   "proxy.example" =
   config_string
     (config (initial parsing_env
                {[ "http.proxy.enable" := "true"; "http.proxy.host" := "proxy.example";
                   "http.proxy.port" := "65616" ]} "" 8))
     "http.proxy.host" "" /\
   (exists z,
      config_int parsing_env
        (config (initial parsing_env
                   {[ "http.proxy.enable" := "true"; "http.proxy.host" := "proxy.example";
                      "http.proxy.port" := "65616" ]} "" 8))
        "http.proxy.port" 80 = Some z /\ 80 = UInt16 z) /\
   0 <= 80 < 65536 /\
   "" = config_string
          (config (initial parsing_env
                     {[ "http.proxy.enable" := "true"; "http.proxy.host" := "proxy.example";
                        "http.proxy.port" := "65616" ]} "" 8))
          "http.proxy.username" "" /\
   "" = config_string
          (config (initial parsing_env
                     {[ "http.proxy.enable" := "true"; "http.proxy.host" := "proxy.example";
                        "http.proxy.port" := "65616" ]} "" 8))
          "http.proxy.password" "").
Proof.
  apply (proxy_from_configuration parsing_env
           (initial parsing_env
              {[ "http.proxy.enable" := "true"; "http.proxy.host" := "proxy.example";
                 "http.proxy.port" := "65616" ]} "" 8)
           "proxy.example" "" "" 80).
  vm_compute. right. left. reflexivity.
Defined.

(** ** TLS comes first *)






(** X15: in a program built with TLS, when the initialization of the client
    context throws, [main] throws that exception right after the attempt:
    there is no proxy set, no prompt, no tunnel and no launch. *)
Theorem tls_failure (env : Env) (args : list string) (s : State) (a e : bool)
    (ct rt lt : Z) (ex : exn) :
  session s args ->
  tls_enabled env = true ->
  config_int env (config s) "webtunnel.connectTimeout" 30 = Some ct ->
  config_int env (config s) "webtunnel.remoteTimeout" 300 = Some rt ->
  config_int env (config s) "webtunnel.localTimeout" 7200 = Some lt ->
  config_bool env (config s) "tls.acceptUnknownCertificate" true = Some a ->
  config_bool env (config s) "tls.extendedCertificateVerification" false = Some e ->
  initialize_client env a
    (config_string (config s) "tls.ciphers" "ALL:!ADH:!LOW:!EXP:!MD5:@STRENGTH") e
    (config_string (config s) "tls.caLocation" "") = Some ex ->
  main env args s =
  (Thrown ex,
   add_event
     (InitializeClient a
        (config_string (config s) "tls.ciphers" "ALL:!ADH:!LOW:!EXP:!MD5:@STRENGTH") e
        (config_string (config s) "tls.caLocation" "")) s).
Proof.
  intros Hs Htls H1 H2 H3 Ha He Hi. apply main_setup_thrown; [exact Hs|].
  rewrite transportSetup_setup_of. unfold setup_of, tls_setup.
  rewrite H1, H2, H3, Htls, Ha, He, Hi. reflexivity.
Qed.

Lemma tls_failure_witness :
  main parsing_env ["https://device.example/"]
    (initial parsing_env {[ "tls.caLocation" := "/no/such/dir" ]} "" 8) =
  (Thrown (Exception "SSLContextException"),
   add_event
     (InitializeClient true
        (config_string (config (initial parsing_env {[ "tls.caLocation" := "/no/such/dir" ]} "" 8))
           "tls.ciphers" "ALL:!ADH:!LOW:!EXP:!MD5:@STRENGTH")
        false
        (config_string (config (initial parsing_env {[ "tls.caLocation" := "/no/such/dir" ]} "" 8))
           "tls.caLocation" ""))
     (initial parsing_env {[ "tls.caLocation" := "/no/such/dir" ]} "" 8)).
Proof.
  apply (tls_failure parsing_env ["https://device.example/"]
           (initial parsing_env {[ "tls.caLocation" := "/no/such/dir" ]} "" 8)
           true false 30 300 7200 (Exception "SSLContextException"));
    try reflexivity.
  split; [reflexivity | discriminate].
Defined.

(** ** [echo] and the other bits of the terminal mode *)

Lemma echo_run (env : Env) (status : bool) (s : State) :
  echo env status s =
  (Normal tt,
   add_event
     (SetTerminalMode
        (if status then Z.lor (terminal s) (echo_flag (os env))
         else Z.land (terminal s) (Z.lnot (echo_flag (os env)))))
     (set_terminal
        (if status then Z.lor (terminal s) (echo_flag (os env))
         else Z.land (terminal s) (Z.lnot (echo_flag (os env)))) s)).
Proof. reflexivity. Qed.

(** X16: [echo] changes the echo bit of the terminal mode and no other: after
    [echo(status)] the bit of the echo flag (bit 3 of the Unix mode, bit 2
    of the Windows console mode) is [status], every other bit of the mode is
    what it was, and the object, the configuration and the input are
    untouched. *)
Theorem echo_changes_one_bit (env : Env) (status : bool) (s : State) (n : Z) :
  0 <= n ->
  let s' := (echo env status s).2 in
  Z.testbit (terminal s') n =
    (if Z.testbit (echo_flag (os env)) n then status else Z.testbit (terminal s) n) /\
  Z.testbit (echo_flag (os env)) n = (n =? match os env with Windows => 2 | Unix => 3 end) /\
  self s' = self s /\ config s' = config s /\ cin s' = cin s.
Proof.
  intros Hn s'. subst s'. rewrite echo_run. cbn [snd terminal add_event set_terminal].
  split; [|split; [|repeat split]].
  - destruct status.
    + rewrite Z.lor_spec. destruct (Z.testbit (echo_flag (os env)) n);
        [apply orb_true_r | apply orb_false_r].
    + rewrite Z.land_spec, Z.lnot_spec by exact Hn.
      destruct (Z.testbit (echo_flag (os env)) n);
        [apply andb_false_r | apply andb_true_r].
  - destruct (os env); unfold echo_flag, ENABLE_ECHO_INPUT, ECHO.
    + change 4 with (2 ^ 2). rewrite Z.pow2_bits_eqb by lia.
      rewrite Z.eqb_sym. reflexivity.
    + change 8 with (2 ^ 3). rewrite Z.pow2_bits_eqb by lia.
      rewrite Z.eqb_sym. reflexivity.
Qed.

Lemma echo_changes_one_bit_witness :
  let s' := (echo unix_env false (initial unix_env ∅ "" 35387)).2 in
  Z.testbit (terminal s') 3 =
    (if Z.testbit (echo_flag (os unix_env)) 3 then false
     else Z.testbit (terminal (initial unix_env ∅ "" 35387)) 3) /\
  Z.testbit (echo_flag (os unix_env)) 3 =
    (3 =? match os unix_env with Windows => 2 | Unix => 3 end) /\
  self s' = self (initial unix_env ∅ "" 35387) /\
  config s' = config (initial unix_env ∅ "" 35387) /\
  cin s' = cin (initial unix_env ∅ "" 35387).
Proof.
  apply (echo_changes_one_bit unix_env false (initial unix_env ∅ "" 35387) 3). lia.
Defined.

(** ** A client given by its path *)

(** X17: the client is classified by the first characters of the whole
    string it is given as, not by the name of the file: a client given by a
    path that begins with '/' is handled as a plain ssh, with "-p", the
    login name and "localhost", also when the file is scp or putty. *)
Theorem client_by_path (path l : string) (port : Z) (args : list string) :
  sshArgs (String "/" path) port l args =
  ["-p"; Poco.format (Z.to_N port)] ++
  (if str_empty l then [] else ["-l"; l]) ++ tail args ++ ["localhost"].
Proof.
  rewrite sshArgs_eq.
  assert (Hp : iprefix "putty" (String "/" path) = false) by reflexivity.
  assert (Hs : iprefix "scp" (String "/" path) = false) by reflexivity.
  rewrite Hp, Hs. destruct (str_empty l); reflexivity.
Qed.

(** ** Exceptions *)

Lemma outcome_thrown (env : Env) (args : list string) (s s' : State)
    (res : result Z) (e : exn) :
  outcome env args s res s' ->
  res = Thrown e ->
  launches (trace s') = launches (trace s) \/
  exists port,
    launch_wait env (client_at s) (client_args s args port) = inl e /\
    launches (trace s') = launches (trace s) ++ [(client_at s, client_args s args port)].
Proof.
  intros H Hr. destruct H as
    [ Hh | e0 s1 Hs Ht | t s1 Hs Ht Hc | t s1 e0 Hs Ht Hc Hu | t s1 uri e0 Hs Ht Hc Hu Hf
    | t s1 uri port e0 Hs Ht Hc Hu Hf Hl | t s1 uri port rc' Hs Ht Hc Hu Hf Hl ];
    try discriminate; inversion Hr; subst;
    pose proof (transportSetup_quiet _ _ _ _ Ht) as Hq.
  - left. destruct (quiet_early _ _ Hq) as (p & Ep & Fp). eapply no_new_launch; eauto.
  - left. destruct (prompted_early env _ _ Hq) as (p & Ep & Fp).
    eapply no_new_launch; eauto.
  - left. destruct (prompted_early env _ _ Hq) as (p & Ep & Fp).
    eapply no_new_launch; eauto.
  - right. exists port. split; [exact Hl|].
    destruct (prompted_early env _ _ Hq) as (p & Ep & Fp).
    cbn [trace launched]. rewrite Ep, !launches_app.
    rewrite (no_launch_launches p) by now apply early_no_launch.
    rewrite !app_nil_r. reflexivity.
Qed.

(** X18: an exception leaves [main] either before any client was launched
    or as the failure of the one launch it made: then it is the exception
    of [Process::launch] or [wait] for the resolved client and its vector. *)
Theorem thrown_exception (env : Env) (args : list string) (s : State) (e : exn) :
  (main env args s).1 = Thrown e ->
  launches (trace (main env args s).2) = launches (trace s) \/
  exists port,
    launch_wait env (client_at s) (client_args s args port) = inl e /\
    launches (trace (main env args s).2) =
    launches (trace s) ++ [(client_at s, client_args s args port)].
Proof.
  intros H. exact (outcome_thrown env args s _ _ e (main_outcome env args s) H).
Qed.

Lemma thrown_exception_witness :
  launches (trace (main bad_uri_env ["device"] (initial bad_uri_env ∅ "" 8)).2) =
  launches (trace (initial bad_uri_env ∅ "" 8)) \/
  exists port,
    launch_wait bad_uri_env (client_at (initial bad_uri_env ∅ "" 8))
      (client_args (initial bad_uri_env ∅ "" 8) ["device"] port) =
    inl (Exception "SyntaxException") /\
    launches (trace (main bad_uri_env ["device"] (initial bad_uri_env ∅ "" 8)).2) =
    launches (trace (initial bad_uri_env ∅ "" 8)) ++
    [(client_at (initial bad_uri_env ∅ "" 8),
      client_args (initial bad_uri_env ∅ "" 8) ["device"] port)].
Proof.
  apply (thrown_exception bad_uri_env ["device"] (initial bad_uri_env ∅ "" 8)
           (Exception "SyntaxException")).
  reflexivity.
Defined.

Lemma handleOption_bad_port (env : Env) (name value : string) (s : State) :
  name = "local-port" \/ name = "remote-port" ->
  (forall n, ~ valid_port env value n) ->
  handleOption env name value s = (Thrown (Exception "InvalidArgumentException"), s).
Proof.
  intros Hn Hv.
  handle_cases env name value;
    try (destruct Hn; discriminate); try (destruct Hn; congruence);
    try reflexivity;
    exfalso; apply (Hv parsed); split; auto;
    apply orb_false_iff in Hrange as [H1 H2]; apply Z.ltb_ge in H1, H2; lia.
Qed.

Lemma process_thrown (env : Env) (opts : list (string * string)) :
  forall sp s name value,
    name = "local-port" \/ name = "remote-port" ->
    In (name, value) opts ->
    (forall n, ~ valid_port env value n) ->
    exists e, (process env sp opts s).1 = Thrown e.
Proof.
  induction opts as [|[n0 v0] opts IH]; intros sp s name value Hn Hin Hv;
    [destruct Hin|].
  destruct (process_cons env sp n0 v0 opts s)
    as [(o & s1 & _ & _ & Eh & E)|(e & E)]; rewrite E.
  - destruct Hin as [Heq|Hin].
    + inversion Heq; subst.
      rewrite (handleOption_bad_port env name value s Hn Hv) in Eh. discriminate.
    + exact (IH _ _ name value Hn Hin Hv).
  - exists e. reflexivity.
Qed.

(** X19: a port option whose value is not an integer from 1 to 65535 is
    stopped by its validator: the handler of the option is not run, the
    handling of the options throws (the exception of the validator, when
    this option is the first on the command line), and the run ends there,
    before [main]: nothing is written, read, opened or launched. *)
Theorem bad_port_option (env : Env) (opts : list (string * string))
    (args : list string) (cfg : gmap string string) (input : string) (mode : Z)
    (name value : string) :
  name = "local-port" \/ name = "remote-port" ->
  In (name, value) opts ->
  (forall n, ~ valid_port env value n) ->
  let r := run env opts args (initial env cfg input mode) in
  (exists e, r.1 = Thrown e) /\ trace r.2 = [] /\
  cin r.2 = cin0 input /\ terminal r.2 = mode /\
  (forall s, handleOption env name value s =
             (Thrown (Exception "InvalidArgumentException"), s)) /\
  (forall rest,
     run env ((name, value) :: rest) args (initial env cfg input mode) =
     (Thrown (Exception "InvalidArgumentException"), initial env cfg input mode)).
Proof.
  intros Hn Hin Hv r. subst r. rewrite run_eq.
  destruct (process_thrown env opts [] (initial env cfg input mode) name value Hn Hin Hv)
    as (e & He).
  pose proof (processOptions_outside env opts (initial env cfg input mode))
    as (Ht & Hc & Hm).
  unfold processOptions in *.
  destruct (process env [] opts (initial env cfg input mode)) as [[[]|e'] s'];
    cbn [fst snd] in *; [discriminate|].
  split; [exists e'; reflexivity|]. rewrite Ht, Hc, Hm.
  split; [reflexivity|]. split; [reflexivity|]. split; [reflexivity|].
  split; [intros s; exact (handleOption_bad_port env name value s Hn Hv)|].
  intros rest. rewrite run_eq. unfold processOptions. rewrite process_unfold.
  assert (Hg : exists o, getOption env name (initial env cfg input mode) =
                         (Normal o, initial env cfg input mode)).
  { destruct Hn as [->| ->]; eexists; reflexivity. }
  destruct Hg as (o & ->). cbn [existsb andb]. rewrite andb_false_r.
  rewrite (handleOption_bad_port env name value _ Hn Hv). reflexivity.
Qed.

Lemma bad_port_option_witness :
  let r := run parsing_env [("username", "joe"); ("local-port", "70000")]
             ["https://device.example/"] (initial parsing_env ∅ "" 8) in
  (exists e, r.1 = Thrown e) /\ trace r.2 = [] /\
  cin r.2 = cin0 "" /\ terminal r.2 = 8 /\
  (forall s, handleOption parsing_env "local-port" "70000" s =
             (Thrown (Exception "InvalidArgumentException"), s)) /\
  (forall rest,
     run parsing_env (("local-port", "70000") :: rest) ["https://device.example/"]
       (initial parsing_env ∅ "" 8) =
     (Thrown (Exception "InvalidArgumentException"), initial parsing_env ∅ "" 8)).
Proof.
  apply (bad_port_option parsing_env [("username", "joe"); ("local-port", "70000")]
           ["https://device.example/"] ∅ "" 8 "local-port" "70000").
  - left. reflexivity.
  - right. left. reflexivity.
  - intros n [Hp Hr]. vm_compute in Hp. inversion Hp; subst. lia.
Defined.
